(** * Flash Express bulk-shipments template generator

    A shallow embedding of [create_bulk_template.py] and of the part of the
    openpyxl object model the script drives (workbook, worksheets, cells,
    column dimensions, data validations), followed by the properties of the
    generated workbook.

    Python objects are mutable and shared: the worksheet returned by
    [create_sheet] is the very object the workbook holds, and a
    [DataValidation] is attached to its sheet before the cell range is added
    to it.  Objects therefore live in typed heaps and are passed around as
    references. *)

From Stdlib Require Import Strings.String Strings.Ascii Numbers.DecimalString.
From Stdlib Require Import Arith.PeanoNat Lia.
From Stdlib Require Numbers.DecimalNat.
From stdpp Require Import gmap strings list fin_maps.

Local Open Scope string_scope.
Local Open Scope nat_scope.

(* Row 1000 and column 18278 are written as plain numerals. *)
Set Warnings "-abstract-large-number".

(* ------------------------------------------------------------------ *)
(** ** Python strings *)
(* ------------------------------------------------------------------ *)

Module PyStr.

(** [str(n)] for a non-negative integer. *)
Definition of_nat (n : nat) : string :=
  NilZero.string_of_uint (Nat.to_uint n).

(** [s.startswith(p)] *)
Definition startswith (s p : string) : bool := String.prefix p s.

(** [s.endswith(p)] *)
Definition endswith (s p : string) : bool :=
  let n := String.length s in
  let k := String.length p in
  if k <=? n then String.eqb (String.substring (n - k) k s) p else false.

(** [s.replace(old, new)] for a non-empty [old]: leftmost, non-overlapping
    occurrences.  [skip] counts the characters of a match still to drop. *)
Fixpoint replace_go (old new : string) (skip : nat) (s : string) : string :=
  match s with
  | EmptyString => EmptyString
  | String c s' =>
      match skip with
      | S k => replace_go old new k s'
      | O =>
          if String.prefix old s
          then new +:+ replace_go old new (String.length old - 1) s'
          else String c (replace_go old new 0 s')
      end
  end.

(** With an empty [old], Python inserts [new] before every character and
    at the end. *)
Fixpoint interleave (new s : string) : string :=
  match s with
  | EmptyString => new
  | String c s' => new +:+ String c (interleave new s')
  end.

Definition replace (s old new : string) : string :=
  match old with
  | EmptyString => interleave new s
  | _ => replace_go old new 0 s
  end.

(** Splitting at the first occurrence of a character (used to read a
    sheet-qualified reference and the two corners of a range). *)
Fixpoint split_at (sep : ascii) (s : string) : option (string * string) :=
  match s with
  | EmptyString => None
  | String c s' =>
      if Ascii.eqb c sep then Some (EmptyString, s')
      else match split_at sep s' with
           | Some (a, b) => Some (String c a, b)
           | None => None
           end
  end.

End PyStr.

(** [enumerate(l, start)] *)
Fixpoint enumerate {A} (start : nat) (l : list A) : list (nat * A) :=
  match l with
  | [] => []
  | x :: l' => (start, x) :: enumerate (S start) l'
  end.

(* ------------------------------------------------------------------ *)
(** ** Exceptions *)
(* ------------------------------------------------------------------ *)

(** The exception classes that matter to the script's handlers.
    [ModuleNotFoundError] derives from [ImportError]; every class below
    except [KeyboardInterrupt] derives from [Exception].
    [IllegalCharacterError] is openpyxl's own. *)
Inductive exn_class :=
  | ImportError
  | ModuleNotFoundError
  | ValueError
  | IllegalCharacterError
  | IndexError
  | KeyError
  | OSError
  | PermissionError
  | RuntimeError
  | KeyboardInterrupt.

Record exn := Exn { exn_cls : exn_class; exn_str : string }.

Definition is_ImportError (e : exn) : bool :=
  match exn_cls e with
  | ImportError | ModuleNotFoundError => true
  | _ => false
  end.

Definition is_Exception (e : exn) : bool :=
  match exn_cls e with
  | KeyboardInterrupt => false
  | _ => true
  end.

(* ------------------------------------------------------------------ *)
(** ** openpyxl: cell references *)
(* ------------------------------------------------------------------ *)

Module Utils.

(** [openpyxl.utils.cell._get_column_letter]: repeated [divmod] by 26 with
    a borrow on exact division; the letters come out last-first. *)
Fixpoint column_letters_rev (fuel col_idx : nat) : list ascii :=
  match fuel with
  | O => []
  | S fuel' =>
      if col_idx =? 0 then []
      else
        let q := col_idx / 26 in
        let r := col_idx mod 26 in
        let '(q, r) := if r =? 0 then (q - 1, 26) else (q, r) in
        ascii_of_nat (r + 64) :: column_letters_rev fuel' q
  end.

Definition get_column_letter (col_idx : nat) : exn + string :=
  if (1 <=? col_idx) && (col_idx <=? 18278)
  then inr (string_of_list_ascii (rev (column_letters_rev 3 col_idx)))
  else inl (Exn ValueError ("Invalid column index " +:+ PyStr.of_nat col_idx)).

Definition is_letter (c : ascii) : bool :=
  let n := nat_of_ascii c in
  ((65 <=? n) && (n <=? 90)) || ((97 <=? n) && (n <=? 122)).

Definition is_digit (c : ascii) : bool :=
  let n := nat_of_ascii c in (48 <=? n) && (n <=? 57).

Definition upper (c : ascii) : ascii :=
  let n := nat_of_ascii c in
  if (97 <=? n) && (n <=? 122) then ascii_of_nat (n - 32) else c.

(** [column_index_from_string]: base-26 value of one to three letters. *)
Definition column_index_from_string (s : string) : option nat :=
  let cs := list_ascii_of_string s in
  if (1 <=? length cs) && (length cs <=? 3) && forallb is_letter cs
  then Some (fold_left (fun acc c => acc * 26 + (nat_of_ascii (upper c) - 64)) cs 0)
  else None.

Definition digits_value (cs : list ascii) : nat :=
  fold_left (fun acc c => acc * 10 + (nat_of_ascii c - 48)) cs 0.

(** The longest prefix of characters satisfying [p], and the rest. *)
Fixpoint span (p : ascii -> bool) (cs : list ascii) : list ascii * list ascii :=
  match cs with
  | [] => ([], [])
  | c :: cs' =>
      if p c then let '(a, b) := span p cs' in (c :: a, b) else ([], cs)
  end.

Definition drop_dollar (cs : list ascii) : list ascii :=
  match cs with
  | c :: cs' => if Ascii.eqb c "$"%char then cs' else cs
  | [] => []
  end.

(** One corner of a range, [[$]LETTERS[$]DIGITS], as (column, row). *)
Definition parse_corner (s : string) : option (nat * nat) :=
  let '(letters, rest) := span is_letter (drop_dollar (list_ascii_of_string s)) in
  let '(digits, rest') := span is_digit (drop_dollar rest) in
  match rest', digits with
  | [], _ :: _ =>
      match column_index_from_string (string_of_list_ascii letters) with
      | Some c => Some (c, digits_value digits)
      | None => None
      end
  | _, _ => None
  end.

End Utils.

(** [openpyxl.worksheet.cell_range.CellRange]: the four bounds. *)
Record CellRange := mkCellRange {
  min_col : nat;
  min_row : nat;
  max_col : nat;
  max_row : nat
}.

Definition range_error (s : string) : exn :=
  Exn ValueError (s +:+ " is not a valid coordinate or range").

(** [CellRange(range_string)] through [range_boundaries].  Only references
    whose corners name both a column and a row are accepted here (a single
    cell, or [corner:corner]); whole-row and whole-column references, which
    the script never builds, are reported as invalid. *)
Definition range_boundaries (s : string) : exn + CellRange :=
  match PyStr.split_at ":"%char s with
  | None =>
      match Utils.parse_corner s with
      | Some (c, r) => inr (mkCellRange c r c r)
      | None => inl (range_error s)
      end
  | Some (a, b) =>
      match Utils.parse_corner a, Utils.parse_corner b with
      | Some (c1, r1), Some (c2, r2) => inr (mkCellRange c1 r1 c2 r2)
      | _, _ => inl (range_error s)
      end
  end.

(** A cell lies in a range. *)
Definition in_range (r : CellRange) (row col : nat) : bool :=
  (min_row r <=? row) && (row <=? max_row r) &&
  (min_col r <=? col) && (col <=? max_col r).

Definition range_subset (a b : CellRange) : bool :=
  (min_row b <=? min_row a) && (max_row a <=? max_row b) &&
  (min_col b <=? min_col a) && (max_col a <=? max_col b).

(** [CellRange(range_string)]: the bounds must be ordered. *)
Definition CellRange_of_string (s : string) : exn + CellRange :=
  match range_boundaries s with
  | inl e => inl e
  | inr r =>
      if (min_col r <=? max_col r) && (min_row r <=? max_row r) then inr r
      else inl (Exn ValueError (s +:+ " is not a valid range"))
  end.

(* ------------------------------------------------------------------ *)
(** ** openpyxl: styles, cells, sheets, validations, workbooks *)
(* ------------------------------------------------------------------ *)

(** Styles.  Colours are stored the way openpyxl stores them, as aRGB: eight
    hexadecimal digits, alpha channel first. *)
Record Font := mkFont {
  bold : bool;
  font_size : option nat;
  font_color : option string
}.

Record PatternFill := mkPatternFill {
  start_color : string;
  end_color : string;
  fill_type : string
}.

Record Alignment := mkAlignment {
  horizontal : option string;
  vertical : option string;
  wrap_text : option bool
}.

Record Cell := mkCell {
  value : option string;
  font : option Font;
  fill : option PatternFill;
  alignment : option Alignment
}.

Definition empty_cell : Cell := mkCell None None None None.

Definition set_value (v : string) (c : Cell) : Cell :=
  mkCell (Some v) (font c) (fill c) (alignment c).
Definition set_font (f : Font) (c : Cell) : Cell :=
  mkCell (value c) (Some f) (fill c) (alignment c).
Definition set_fill (f : PatternFill) (c : Cell) : Cell :=
  mkCell (value c) (font c) (Some f) (alignment c).
Definition set_alignment (a : Alignment) (c : Cell) : Cell :=
  mkCell (value c) (font c) (fill c) (Some a).

(** [DataValidation]: the attributes the script passes or assigns, the
    display switches its constructor defaults, and the ranges it applies
    to.  [showErrorMessage] is the switch of the error alert: the
    application shows [errorTitle] and [error] on an invalid entry only
    when it is set. *)
Record DataValidation := mkDataValidation {
  dv_type : option string;
  formula1 : option string;
  showDropDown : bool;
  showErrorMessage : bool;
  showInputMessage : bool;
  allowBlank : bool;
  dv_error : option string;
  dv_errorTitle : option string;
  sqref : list CellRange
}.

(** References into the heaps. *)
Abbreviation ws_ref := nat (only parsing).
Abbreviation dv_ref := nat (only parsing).
Abbreviation wb_ref := nat (only parsing).

(** A cell object is addressed through its sheet and coordinates
    (row, column). *)
Record cell_ref := mkCellRef { cell_sheet : ws_ref; cell_row : nat; cell_column : nat }.

Record Worksheet := mkWorksheet {
  title : string;
  sheet_state : string;
  cells : gmap (nat * nat) Cell;
  column_dimensions : gmap string nat;
  data_validations : list dv_ref
}.

Definition new_worksheet (t : string) : Worksheet :=
  mkWorksheet t "visible" ∅ ∅ [].

Definition with_cells (f : gmap (nat * nat) Cell -> gmap (nat * nat) Cell)
    (w : Worksheet) : Worksheet :=
  mkWorksheet (title w) (sheet_state w) (f (cells w)) (column_dimensions w)
    (data_validations w).

Definition with_column_dimensions (f : gmap string nat -> gmap string nat)
    (w : Worksheet) : Worksheet :=
  mkWorksheet (title w) (sheet_state w) (cells w) (f (column_dimensions w))
    (data_validations w).

Definition with_data_validations (f : list dv_ref -> list dv_ref)
    (w : Worksheet) : Worksheet :=
  mkWorksheet (title w) (sheet_state w) (cells w) (column_dimensions w)
    (f (data_validations w)).

Record Workbook := mkWorkbook {
  wb_sheets : list ws_ref;          (* [_sheets] *)
  active_sheet_index : nat          (* [_active_sheet_index] *)
}.

(** What [save] leaves on disk: the workbook with every reference resolved. *)
Record SavedSheet := mkSavedSheet {
  s_title : string;
  s_cells : gmap (nat * nat) Cell;
  s_column_dimensions : gmap string nat;
  s_validations : list DataValidation
}.

Record SavedWorkbook := mkSavedWorkbook {
  s_sheets : list SavedSheet;
  s_active : nat
}.

(* ------------------------------------------------------------------ *)
(** ** The interpreter state and the monad of script code *)
(* ------------------------------------------------------------------ *)

(** What a run cannot choose.  For each module, whether importing it works
    or which exception it raises: the module is not installed, one of its
    own dependencies is missing, or the installation is broken.  Whether
    writing the output file fails and with which exception, and whether
    that failure comes before the archive is opened for writing (the path
    cannot be written) or after it (the file is already truncated). *)
Record Env := mkEnv {
  import_failure : string -> option exn;
  save_failure : option exn;
  archive_opened : bool
}.

Definition importable (env : Env) (m : string) : bool :=
  match import_failure env m with
  | None => true
  | Some _ => false
  end.

(** The interpreter state: the three object heaps, what was printed, and
    the disk.  The disk maps a path to the workbook that can be read from
    it; a path holding a truncated or incomplete archive holds no
    workbook. *)
Record State := mkState {
  worksheets : list Worksheet;
  validations : list DataValidation;
  workbooks : list Workbook;
  stdout : list string;
  files : gmap string SavedWorkbook
}.

Definition M (A : Type) : Type := Env -> State -> (exn + A) * State.

Definition ret {A} (a : A) : M A := fun _ st => (inr a, st).

Definition bind {A B} (m : M A) (k : A -> M B) : M B :=
  fun env st =>
    match m env st with
    | (inr a, st') => k a env st'
    | (inl e, st') => (inl e, st')
    end.

Definition raise {A} (e : exn) : M A := fun _ st => (inl e, st).

Definition get_state : M State := fun _ st => (inr st, st).
Definition put_state (st : State) : M unit := fun _ _ => (inr tt, st).
Definition ask : M Env := fun env st => (inr env, st).

#[global] Instance M_ret : MRet M := @ret.
#[global] Instance M_bind : MBind M := fun A B k m => bind m k.

(** A value or an exception computed outside the state. *)
Definition lift {A} (r : exn + A) : M A :=
  match r with
  | inr a => ret a
  | inl e => raise e
  end.

(** [for x in l: body(x)] *)
Fixpoint for_each {A} (l : list A) (body : A -> M unit) : M unit :=
  match l with
  | [] => ret tt
  | x :: l' => body x;; for_each l' body
  end.

(** [print(s)] *)
Definition print (s : string) : M unit :=
  fun _ st =>
    (inr tt, mkState (worksheets st) (validations st) (workbooks st)
               (stdout st ++ [s]) (files st)).

(** Updating one field of the state. *)
Definition set_worksheets (x : list Worksheet) (st : State) : State :=
  mkState x (validations st) (workbooks st) (stdout st) (files st).
Definition set_validations (x : list DataValidation) (st : State) : State :=
  mkState (worksheets st) x (workbooks st) (stdout st) (files st).
Definition set_workbooks (x : list Workbook) (st : State) : State :=
  mkState (worksheets st) (validations st) x (stdout st) (files st).
Definition set_files (x : gmap string SavedWorkbook) (st : State) : State :=
  mkState (worksheets st) (validations st) (workbooks st) (stdout st) x.

Definition modify (f : State -> State) : M unit :=
  fun _ st => (inr tt, f st).

(** References only come from allocation, so a lookup through one always
    finds its object; the failing branch keeps [deref] total. *)
Definition deref {A} (heap : State -> list A) (r : nat) : M A :=
  st ← get_state;
  match heap st !! r with
  | Some x => ret x
  | None => raise (Exn RuntimeError "dangling reference")
  end.

Definition alloc_ws (w : Worksheet) : M ws_ref :=
  st ← get_state;
  put_state (set_worksheets (worksheets st ++ [w]) st);;
  ret (length (worksheets st)).

Definition alloc_dv (d : DataValidation) : M dv_ref :=
  st ← get_state;
  put_state (set_validations (validations st ++ [d]) st);;
  ret (length (validations st)).

Definition alloc_wb (w : Workbook) : M wb_ref :=
  st ← get_state;
  put_state (set_workbooks (workbooks st ++ [w]) st);;
  ret (length (workbooks st)).

Definition update_ws (r : ws_ref) (f : Worksheet -> Worksheet) : M unit :=
  modify (fun st => set_worksheets (alter f r (worksheets st)) st).
Definition update_dv (r : dv_ref) (f : DataValidation -> DataValidation) : M unit :=
  modify (fun st => set_validations (alter f r (validations st)) st).
Definition update_wb (r : wb_ref) (f : Workbook -> Workbook) : M unit :=
  modify (fun st => set_workbooks (alter f r (workbooks st)) st).

(** Position of the first occurrence, as [list.index]. *)
Fixpoint list_index (x : nat) (l : list nat) : option nat :=
  match l with
  | [] => None
  | y :: l' => if x =? y then Some 0 else S <$> list_index x l'
  end.

(** [list.remove]: drops the first occurrence. *)
Fixpoint list_remove (x : nat) (l : list nat) : list nat :=
  match l with
  | [] => []
  | y :: l' => if x =? y then l' else y :: list_remove x l'
  end.

Module Openpyxl.

(** [Workbook()]: one default sheet titled "Sheet", which is active. *)
Definition new_Workbook : M wb_ref :=
  ws ← alloc_ws (new_worksheet "Sheet");
  alloc_wb (mkWorkbook [ws] 0).

(** [wb.active] (getter): the sheet at the active index, [None] when the
    index is out of range. *)
Definition active (wb : wb_ref) : M (option ws_ref) :=
  w ← deref workbooks wb;
  ret (wb_sheets w !! active_sheet_index w).

(** [wb.remove(worksheet)] *)
Definition remove (wb : wb_ref) (worksheet : option ws_ref) : M unit :=
  w ← deref workbooks wb;
  match worksheet with
  | None => raise (Exn ValueError "None is not in list")
  | Some ws =>
      match list_index ws (wb_sheets w) with
      | None => raise (Exn ValueError "list.index(x): x not in list")
      | Some _ =>
          update_wb wb (fun w => mkWorkbook (list_remove ws (wb_sheets w))
                                   (active_sheet_index w))
      end
  end.

(** [wb.sheetnames] *)
Definition sheetnames (wb : wb_ref) : M (list string) :=
  w ← deref workbooks wb;
  st ← get_state;
  ret (omap (fun r => title <$> worksheets st !! r) (wb_sheets w)).

Definition invalid_title_char (c : ascii) : bool :=
  existsb (Ascii.eqb c) (list_ascii_of_string "\*?:/[]").

(** The title a new sheet gets: the requested one unless a sheet already
    carries it, then the title followed by the first free number. *)
Definition avoid_duplicate_name (names : list string) (t : string) : string :=
  if existsb (String.eqb t) names then
    match find (fun i => negb (existsb (String.eqb (t +:+ PyStr.of_nat i)) names))
               (seq 1 (S (length names))) with
    | Some i => t +:+ PyStr.of_nat i
    | None => t
    end
  else t.

(** [wb.create_sheet(title)]: a fresh sheet appended to the workbook. *)
Definition create_sheet (wb : wb_ref) (t : string) : M ws_ref :=
  if existsb invalid_title_char (list_ascii_of_string t)
  then raise (Exn ValueError "Invalid character found in sheet title")
  else
    names ← sheetnames wb;
    ws ← alloc_ws (new_worksheet (avoid_duplicate_name names t));
    update_wb wb (fun w => mkWorkbook (wb_sheets w ++ [ws]) (active_sheet_index w));;
    ret ws.

(** [wb.active = worksheet] (setter) *)
Definition set_active (wb : wb_ref) (ws : ws_ref) : M unit :=
  w ← deref workbooks wb;
  match list_index ws (wb_sheets w) with
  | None => raise (Exn ValueError "Worksheet is not in the workbook")
  | Some idx =>
      s ← deref worksheets ws;
      if String.eqb (sheet_state s) "visible"
      then update_wb wb (fun w => mkWorkbook (wb_sheets w) idx)
      else raise (Exn ValueError "Only visible sheets can be made active")
  end.

Definition update_cell (c : cell_ref) (f : Cell -> Cell) : M unit :=
  update_ws (cell_sheet c) (with_cells (alter f (cell_row c, cell_column c))).

(** The characters a cell value may not hold ([ILLEGAL_CHARACTERS_RE]): the
    control characters other than tab, line feed and carriage return. *)
Definition illegal_character (c : ascii) : bool :=
  let n := N_of_ascii c in
  ((n <=? 8) || ((11 <=? n) && (n <=? 12)) || ((14 <=? n) && (n <=? 31)))%N.

(** Strings are kept as the bytes of their UTF-8 encoding; a character
    starts at every byte that is not a continuation byte. *)
Definition starts_character (c : ascii) : bool :=
  let n := N_of_ascii c in ((n <? 128) || (192 <=? n))%N.

(** [s[:n]]: the first [n] characters. *)
Fixpoint take_characters (n : N) (s : string) : string :=
  match s with
  | EmptyString => EmptyString
  | String c s' =>
      if starts_character c then
        if (n =? 0)%N then EmptyString
        else String c (take_characters (N.pred n) s')
      else String c (take_characters n s')
  end.

(** [Cell.check_string]: a text is cut to 32767 characters and refused when
    an illegal character is left in it. *)
Definition check_string (v : string) : exn + string :=
  let v := take_characters 32767 v in
  if existsb illegal_character (list_ascii_of_string v)
  then inl (Exn IllegalCharacterError (v +:+ " cannot be used in worksheets."))
  else inr v.

(** [ws._get_cell(row, column)]: the cell at a position of the grid,
    created when absent. *)
Definition get_cell (ws : ws_ref) (row column : nat) : M cell_ref :=
  if (0 <? row) && (N.of_nat row <? 1048577)%N
  then
    update_ws ws (with_cells (fun cs =>
      <[(row, column) := default empty_cell (cs !! (row, column))]> cs));;
    ret (mkCellRef ws row column)
  else raise (Exn ValueError
                ("Row numbers must be between 1 and 1048576. Row number supplied was "
                 +:+ PyStr.of_nat row)).

(** [cell.value = v] for a text. *)
Definition set_cell_value (c : cell_ref) (v : string) : M unit :=
  s ← lift (check_string v);
  update_cell c (set_value s).

(** [ws.cell(row=, column=, value=)]: the cell is fetched, or created when
    absent, and then given the value when there is one. *)
Definition cell (ws : ws_ref) (row column : nat) (v : option string) : M cell_ref :=
  if (row <? 1) || (column <? 1)
  then raise (Exn ValueError "Row or column values must be at least 1")
  else
    c ← get_cell ws row column;
    match v with
    | Some s => set_cell_value c s
    | None => mret tt
    end;;
    ret c.

Definition is_hex (c : ascii) : bool :=
  let n := nat_of_ascii c in
  Utils.is_digit c || ((65 <=? n) && (n <=? 70)) || ((97 <=? n) && (n <=? 102)).

(** [Color(rgb=v)]: six or eight hexadecimal digits; six digits get the
    alpha channel "00" in front, so that a colour is always stored as
    aRGB. *)
Definition aRGB (v : string) : exn + string :=
  let cs := list_ascii_of_string v in
  if forallb is_hex cs && ((length cs =? 6) || (length cs =? 8))
  then inr (if length cs =? 6 then "00" +:+ v else v)
  else inl (Exn ValueError "Colors must be aRGB hex values").

(** [Font(bold=, size=, color=)] *)
Definition new_Font (b : bool) (size : option nat) (color : option string)
    : exn + Font :=
  match color with
  | None => inr (mkFont b size None)
  | Some c =>
      match aRGB c with
      | inr c' => inr (mkFont b size (Some c'))
      | inl e => inl e
      end
  end.

(** [PatternFill(start_color=, end_color=, fill_type=)]; the script only
    asks for the pattern "solid". *)
Definition new_PatternFill (start_c end_c pattern : string) : exn + PatternFill :=
  match aRGB start_c, aRGB end_c with
  | inr s, inr e => inr (mkPatternFill s e pattern)
  | inl e, _ => inl e
  | _, inl e => inl e
  end.

(** [cell.font = f], [cell.fill = f], [cell.alignment = a] *)
Definition set_cell_font (c : cell_ref) (f : Font) : M unit :=
  update_cell c (set_font f).
Definition set_cell_fill (c : cell_ref) (f : PatternFill) : M unit :=
  update_cell c (set_fill f).
Definition set_cell_alignment (c : cell_ref) (a : Alignment) : M unit :=
  update_cell c (set_alignment a).

(** [ws.column_dimensions[letter].width = w] *)
Definition set_column_width (ws : ws_ref) (letter : string) (w : nat) : M unit :=
  update_ws ws (with_column_dimensions (<[letter := w]>)).

(** [DataValidation(type=, formula1=, showDropDown=)]: the keyword
    arguments left out take the constructor's defaults, [False] for
    [showErrorMessage], [showInputMessage] and [allowBlank]. *)
Definition new_DataValidation (ty formula : string) (show : bool) : M dv_ref :=
  alloc_dv (mkDataValidation (Some ty) (Some formula) show false false false
              None None []).

(** [dv.error = s], [dv.errorTitle = s]: plain attribute assignments, which
    leave every other attribute as it was. *)
Definition set_error (dv : dv_ref) (s : string) : M unit :=
  update_dv dv (fun d => mkDataValidation (dv_type d) (formula1 d) (showDropDown d)
                           (showErrorMessage d) (showInputMessage d) (allowBlank d)
                           (Some s) (dv_errorTitle d) (sqref d)).
Definition set_errorTitle (dv : dv_ref) (s : string) : M unit :=
  update_dv dv (fun d => mkDataValidation (dv_type d) (formula1 d) (showDropDown d)
                           (showErrorMessage d) (showInputMessage d) (allowBlank d)
                           (dv_error d) (Some s) (sqref d)).

(** [ws.add_data_validation(dv)]: the sheet keeps a reference to [dv]. *)
Definition add_data_validation (ws : ws_ref) (dv : dv_ref) : M unit :=
  update_ws ws (with_data_validations (fun l => (l ++ [dv])%list)).

(** [dv.add(range_string)]: the range joins [sqref] unless a range already
    there contains it. *)
Definition add (dv : dv_ref) (range_string : string) : M unit :=
  cr ← lift (CellRange_of_string range_string);
  update_dv dv (fun d =>
    mkDataValidation (dv_type d) (formula1 d) (showDropDown d)
      (showErrorMessage d) (showInputMessage d) (allowBlank d)
      (dv_error d) (dv_errorTitle d)
      (if existsb (range_subset cr) (sqref d) then sqref d else sqref d ++ [cr])).

(** The workbook as it is written out. *)
Definition snapshot_sheet (st : State) (w : Worksheet) : SavedSheet :=
  mkSavedSheet (title w) (cells w) (column_dimensions w)
    (omap (fun r => validations st !! r) (data_validations w)).

Definition snapshot (st : State) (w : Workbook) : SavedWorkbook :=
  mkSavedWorkbook
    (omap (fun r => snapshot_sheet st <$> worksheets st !! r) (wb_sheets w))
    (active_sheet_index w).

(** [wb.save(filename)]: the archive is opened for writing, which
    truncates the file, and the parts are then written into it.  The
    environment decides whether this fails.  A failure at the opening
    leaves the disk alone; a failure after it leaves an incomplete archive:
    what the path held before is lost and no workbook can be read from it.
    A successful write replaces whatever the path held. *)
Definition save (wb : wb_ref) (filename : string) : M unit :=
  w ← deref workbooks wb;
  env ← ask;
  match save_failure env with
  | Some e =>
      (if archive_opened env
       then modify (fun st => set_files (delete filename (files st)) st)
       else mret tt);;
      raise e
  | None => modify (fun st => set_files (<[filename := snapshot st w]> (files st)) st)
  end.

End Openpyxl.

(* ------------------------------------------------------------------ *)
(** ** create_bulk_template.py: the literals *)
(* ------------------------------------------------------------------ *)

Definition headers : list string := [
  "Client Email";
  "Recipient Name";
  "Recipient Phone";
  "Package Description";
  "Package Value (EGP)";
  "From Street";
  "From Details";
  "From City";
  "From Zone";
  "To Street";
  "To Details";
  "To City";
  "To Zone";
  "Payment Method";
  "Amount to Collect";
  "Is Large Order";
  "Package Weight (kg)";
  "Package Dimensions (LxWxH cm)";
  "Notes"
].

Definition column_widths : list nat :=
  [20; 20; 15; 25; 15; 20; 15; 15; 15; 20; 15; 15; 15; 15; 15; 12; 15; 25; 30].

(** The [choices_data] dict; a Python dict iterates in insertion order and
    the literal has no repeated key, so it is the list of its items. *)
Definition choices_data : list (string * list string) := [
  ("Client_Emails", [
     "admin@flash.com";
     "testclient@flash.com";
     "client@flash.com"
   ]);
  ("Payment_Methods", [
     "COD";
     "Transfer";
     "Wallet"
   ]);
  ("Cities", [
     "Cairo";
     "Alexandria";
     "Giza";
     "Sharm El Sheikh";
     "Hurghada";
     "Luxor";
     "Aswan";
     "Port Said";
     "Suez";
     "Ismailia"
   ]);
  ("Cairo_Zones", [
     "Nasr City";
     "Heliopolis";
     "Maadi";
     "Zamalek";
     "Downtown";
     "Dokki";
     "Mohandessin";
     "New Cairo";
     "6th of October";
     "Shoubra"
   ]);
  ("Alexandria_Zones", [
     "Downtown";
     "Sidi Gaber";
     "Montaza";
     "Smouha";
     "Miami";
     "Gleem";
     "Sporting";
     "Stanley";
     "Camp Cesar";
     "Baccos"
   ]);
  ("Giza_Zones", [
     "Dokki";
     "Mohandessin";
     "Agouza";
     "Haram";
     "6th of October";
     "Sheikh Zayed";
     "Smart Village";
     "Faisal";
     "Imbaba";
     "Bulaq"
   ]);
  ("Package_Descriptions", [
     "Electronics - Smartphone";
     "Electronics - Laptop";
     "Electronics - Tablet";
     "Electronics - Headphones";
     "Electronics - Camera";
     "Clothing - T-Shirt";
     "Clothing - Jeans";
     "Clothing - Shoes";
     "Clothing - Dress";
     "Clothing - Jacket";
     "Books - Novel";
     "Books - Textbook";
     "Books - Magazine";
     "Home & Garden - Kitchen Appliances";
     "Home & Garden - Furniture";
     "Home & Garden - Decor";
     "Food & Beverages - Snacks";
     "Food & Beverages - Drinks";
     "Documents - Legal Papers";
     "Documents - Certificates";
     "Gifts - Birthday Gift";
     "Gifts - Wedding Gift";
     "Medical - Medication";
     "Beauty - Cosmetics";
     "Sports - Equipment"
   ]);
  ("Package_Values", [
     "50"; "100"; "150"; "200"; "250"; "300"; "400";
     "500"; "750"; "1000"; "1500"; "2000"; "3000"; "5000"
   ]);
  ("Large_Order_Options", [
     "TRUE";
     "FALSE"
   ]);
  ("Street_Examples", [
     "123 Main St";
     "456 Oak Ave";
     "789 Pine St";
     "321 Cedar Ln";
     "654 Elm Rd";
     "987 Maple Dr";
     "147 Birch Way";
     "258 Willow Ct";
     "369 Palm Blvd";
     "741 Rose Ave"
   ]);
  ("Building_Details", [
     "Apt 101";
     "Floor 3";
     "Building 5";
     "Suite 201";
     "Unit 12";
     "Villa 25";
     "Office 304";
     "Shop 15";
     "Penthouse";
     "Ground Floor"
   ])
].

Definition sample_data : list (list string) := [
  [ "testclient@flash.com"; "John Doe"; "+201234567890"; "Electronics - Smartphone";
    "500"; "123 Main St"; "Apt 101"; "Cairo"; "Nasr City";
    "456 Oak Ave"; "Building 5"; "Alexandria"; "Downtown"; "COD";
    "520"; "FALSE"; "0.5"; "15x10x5"; "Sample shipment 1" ];
  [ "testclient@flash.com"; "Jane Smith"; "+201987654321"; "Clothing - T-Shirt";
    "150"; "123 Main St"; "Apt 101"; "Cairo"; "Nasr City";
    "789 Pine St"; "Floor 3"; "Giza"; "Dokki"; "Transfer";
    "0"; "FALSE"; "0.3"; "20x15x2"; "Sample shipment 2" ]
].

Definition instructions : list string := [
  "FLASH EXPRESS BULK SHIPMENTS TEMPLATE";
  "";
  "INSTRUCTIONS:";
  "1. Use the 'Shipments' sheet to enter your bulk shipment data";
  "2. Most columns have dropdown menus - click the arrow to select from predefined options";
  "3. The 'Choices' sheet contains all the dropdown options - you can modify these as needed";
  "";
  "REQUIRED FIELDS:";
  "• Client Email - Must be a valid registered client email";
  "• Recipient Name - Full name of the person receiving the package";
  "• Recipient Phone - Phone number in format +201234567890";
  "• Package Description - Brief description of package contents";
  "• Package Value - Monetary value of the package in EGP";
  "• From/To Address Fields - Complete address information";
  "• Payment Method - COD, Transfer, or Wallet";
  "";
  "NOTES:";
  "• For COD shipments, 'Amount to Collect' = Package Value + Shipping Fee";
  "• For Transfer shipments, 'Amount to Collect' can be 0 if no additional amount needed";
  "• For Wallet shipments, 'Amount to Collect' should typically be 0";
  "• Is Large Order: TRUE for packages requiring special handling";
  "• Package Weight in kilograms (e.g., 0.5, 1.2, 2.0)";
  "• Package Dimensions in LxWxH format in centimeters (e.g., 15x10x5)";
  "";
  "AFTER COMPLETING:";
  "1. Save this file";
  "2. Upload it to the Flash Express bulk shipment import feature";
  "3. Review the preview before confirming the import";
  "";
  "For support, contact: admin@flash.com"
].

Definition filename : string := "Flash_Express_Bulk_Shipments_Template.xlsx".

(* ------------------------------------------------------------------ *)
(** ** create_bulk_template.py: the code *)
(* ------------------------------------------------------------------ *)

(** A loop that carries a local variable updated by its body
    ([col] in the choices loop). *)
Fixpoint for_each_acc {A S} (l : list A) (s : S) (body : A -> S -> M S) : M S :=
  match l with
  | [] => mret s
  | x :: l' => s' ← body x s; for_each_acc l' s' body
  end.

(** The nested [create_dropdown] helper. *)
Definition create_dropdown (sheet : ws_ref) (column_letter : string)
    (start_row end_row : nat) (choices_range : string) : M unit :=
  dv ← Openpyxl.new_DataValidation "list" ("Choices." +:+ choices_range) true;
  Openpyxl.set_error dv "Please select a value from the dropdown list";;
  Openpyxl.set_errorTitle dv "Invalid Entry";;
  Openpyxl.add_data_validation sheet dv;;
  Openpyxl.add dv (column_letter +:+ PyStr.of_nat start_row +:+ ":" +:+
                   column_letter +:+ PyStr.of_nat end_row).

(** The loop over [choices_data.items()], with its column counter. *)
Definition add_choices (choices_sheet : ws_ref)
    (data : list (string * list string)) (col : nat) : M nat :=
  for_each_acc data col (fun '(category, choices) col =>
    header_cell ← Openpyxl.cell choices_sheet 1 col
                    (Some (PyStr.replace category "_" " "));
    ft ← lift (Openpyxl.new_Font true None (Some "FFFFFF"));
    Openpyxl.set_cell_font header_cell ft;;
    fl ← lift (Openpyxl.new_PatternFill "70AD47" "70AD47" "solid");
    Openpyxl.set_cell_fill header_cell fl;;
    Openpyxl.set_cell_alignment header_cell (mkAlignment (Some "center") None None);;
    for_each (enumerate 2 choices) (fun '(row, choice) =>
      Openpyxl.cell choices_sheet row col (Some choice);; mret tt);;
    letter ← lift (Utils.get_column_letter col);
    Openpyxl.set_column_width choices_sheet letter 25;;
    mret (col + 1)).

Definition create_bulk_shipments_template : M unit :=
  wb ← Openpyxl.new_Workbook;
  a ← Openpyxl.active wb;
  Openpyxl.remove wb a;;
  shipments_sheet ← Openpyxl.create_sheet wb "Shipments";
  choices_sheet ← Openpyxl.create_sheet wb "Choices";
  for_each (enumerate 1 headers) (fun '(col, header) =>
    cell ← Openpyxl.cell shipments_sheet 1 col (Some header);
    ft ← lift (Openpyxl.new_Font true None (Some "FFFFFF"));
    Openpyxl.set_cell_font cell ft;;
    fl ← lift (Openpyxl.new_PatternFill "366092" "366092" "solid");
    Openpyxl.set_cell_fill cell fl;;
    Openpyxl.set_cell_alignment cell (mkAlignment (Some "center") (Some "center") None));;
  for_each (enumerate 1 column_widths) (fun '(col, width) =>
    letter ← lift (Utils.get_column_letter col);
    Openpyxl.set_column_width shipments_sheet letter width);;
  add_choices choices_sheet choices_data 1;;
  let end_row := 1000 in
  create_dropdown shipments_sheet "A" 2 end_row "$A$2:$A$4";;
  create_dropdown shipments_sheet "N" 2 end_row "$B$2:$B$4";;
  create_dropdown shipments_sheet "H" 2 end_row "$C$2:$C$11";;
  create_dropdown shipments_sheet "L" 2 end_row "$C$2:$C$11";;
  create_dropdown shipments_sheet "D" 2 end_row "$G$2:$G$26";;
  create_dropdown shipments_sheet "E" 2 end_row "$H$2:$H$15";;
  create_dropdown shipments_sheet "P" 2 end_row "$I$2:$I$3";;
  for_each (enumerate 2 sample_data) (fun '(row_idx, row_data) =>
    for_each (enumerate 1 row_data) (fun '(col_idx, value) =>
      Openpyxl.cell shipments_sheet row_idx col_idx (Some value);; mret tt));;
  instructions_sheet ← Openpyxl.create_sheet wb "Instructions";
  Openpyxl.set_column_width instructions_sheet "A" 80;;
  for_each (enumerate 1 instructions) (fun '(row, instruction) =>
    cell ← Openpyxl.cell instructions_sheet row 1 (Some instruction);
    (if row =? 1 then
       (ft ← lift (Openpyxl.new_Font true (Some 16) (Some "366092"));
        Openpyxl.set_cell_font cell ft)
     else if PyStr.endswith instruction ":" && negb (PyStr.startswith instruction "•") then
       (ft ← lift (Openpyxl.new_Font true None (Some "70AD47"));
        Openpyxl.set_cell_font cell ft)
     else mret tt);;
    Openpyxl.set_cell_alignment cell (mkAlignment None None (Some true)));;
  Openpyxl.set_active wb shipments_sheet;;
  Openpyxl.save wb filename;;
  print ("✅ Template created successfully: " +:+ filename);;
  print "📋 The template includes:";;
  print "   • Shipments sheet with dropdown menus";;
  print "   • Choices sheet with all dropdown options";;
  print "   • Instructions sheet with detailed guidance";;
  print "   • Sample data rows for reference".

(** [import m] and [from m import x]: the packages on the dotted path are
    loaded left to right; the first one whose import fails ends the
    statement with the exception that import raises. *)
Definition import (path : list string) : M unit :=
  for_each path (fun m =>
    env ← ask;
    match import_failure env m with
    | None => mret tt
    | Some e => raise e
    end).

(** [try: body  except c1 as e: h1(e)  except c2 as e: h2(e)]: the first
    clause whose class matches handles the exception. *)
Definition try_except {A} (body : M A)
    (handlers : list ((exn -> bool) * (exn -> M A))) : M A :=
  fun env st =>
    match body env st with
    | (inr a, st') => (inr a, st')
    | (inl e, st') =>
        match find (fun h => h.1 e) handlers with
        | Some h => h.2 e env st'
        | None => (inl e, st')
        end
    end.

(** The module body, top to bottom: the imports, the function definition
    (no effect), and the [__main__] guard. *)
Definition script (name_is_main : bool) : M unit :=
  import ["pandas"];;
  import ["openpyxl"];;
  import ["openpyxl"; "openpyxl.utils"; "openpyxl.utils.dataframe"];;
  import ["openpyxl"; "openpyxl.worksheet"; "openpyxl.worksheet.datavalidation"];;
  import ["openpyxl"; "openpyxl.styles"];;
  import ["openpyxl"; "openpyxl.utils"];;
  if name_is_main then
    try_except create_bulk_shipments_template [
      (is_ImportError, fun e =>
         print "❌ Missing required libraries. Please install them with:";;
         print "pip install pandas openpyxl";;
         print ("Error: " +:+ exn_str e));
      (is_Exception, fun e =>
         print ("❌ Error creating template: " +:+ exn_str e))
    ]
  else mret tt.

(** How the interpreter ends: normally, or with a traceback for an exception
    nothing caught. *)
Inductive termination :=
  | ExitedNormally
  | UncaughtException (e : exn).

Definition initial_state (fs : gmap string SavedWorkbook) : State :=
  mkState [] [] [] [] fs.

(** [python create_bulk_template.py] in environment [env], with [fs] on
    disk: how it ends, what it printed, and the files afterwards. *)
Definition run (env : Env) (fs : gmap string SavedWorkbook)
    : termination * list string * gmap string SavedWorkbook :=
  match script true env (initial_state fs) with
  | (inr _, st) => (ExitedNormally, stdout st, files st)
  | (inl e, st) => (UncaughtException e, stdout st, files st)
  end.

(** An environment where everything is installed and the disk is writable. *)
Definition complete_env : Env := mkEnv (fun _ => None) None false.

(** The modules the import statements load. *)
Definition required_modules : list string :=
  ["pandas"; "openpyxl"; "openpyxl.utils"; "openpyxl.utils.dataframe";
   "openpyxl.worksheet"; "openpyxl.worksheet.datavalidation"; "openpyxl.styles"].

Definition imports_ok (env : Env) : bool :=
  forallb (importable env) required_modules.

(** The six lines a successful run prints. *)
Definition success_report : list string := [
  "✅ Template created successfully: Flash_Express_Bulk_Shipments_Template.xlsx";
  "📋 The template includes:";
  "   • Shipments sheet with dropdown menus";
  "   • Choices sheet with all dropdown options";
  "   • Instructions sheet with detailed guidance";
  "   • Sample data rows for reference"
].

(** The workbook a run in the complete environment writes to [filename]. *)
Definition template : SavedWorkbook :=
  default (mkSavedWorkbook [] 0) ((run complete_env ∅).2 !! filename).

(* ------------------------------------------------------------------ *)
(** ** Decidable equality of saved workbooks *)
(* ------------------------------------------------------------------ *)

#[global] Instance Font_eq_dec : EqDecision Font.
Proof. solve_decision. Defined.
#[global] Instance PatternFill_eq_dec : EqDecision PatternFill.
Proof. solve_decision. Defined.
#[global] Instance Alignment_eq_dec : EqDecision Alignment.
Proof. solve_decision. Defined.
#[global] Instance Cell_eq_dec : EqDecision Cell.
Proof. solve_decision. Defined.
#[global] Instance CellRange_eq_dec : EqDecision CellRange.
Proof. solve_decision. Defined.
#[global] Instance DataValidation_eq_dec : EqDecision DataValidation.
Proof. solve_decision. Defined.
#[global] Instance SavedSheet_eq_dec : EqDecision SavedSheet.
Proof. solve_decision. Defined.
#[global] Instance SavedWorkbook_eq_dec : EqDecision SavedWorkbook.
Proof. solve_decision. Defined.

(* ------------------------------------------------------------------ *)
(** ** Reading a saved workbook *)
(* ------------------------------------------------------------------ *)

Definition sheet_titles (wb : SavedWorkbook) : list string :=
  s_title <$> s_sheets wb.

(** The sheet shown when the file is opened. *)
Definition active_sheet (wb : SavedWorkbook) : option SavedSheet :=
  s_sheets wb !! s_active wb.

Definition get_sheet (wb : SavedWorkbook) (name : string) : option SavedSheet :=
  find (fun s => String.eqb (s_title s) name) (s_sheets wb).

Definition empty_sheet : SavedSheet := mkSavedSheet "" ∅ ∅ [].

(** The value held at (row, column); [None] for a cell that does not exist
    or holds nothing. *)
Definition cell_value (sh : SavedSheet) (row col : nat) : option string :=
  s_cells sh !! (row, col) ≫= value.

(** The three sheets of the generated workbook. *)
Definition shipments : SavedSheet := default empty_sheet (get_sheet template "Shipments").
Definition choices : SavedSheet := default empty_sheet (get_sheet template "Choices").
Definition instructions_sheet : SavedSheet :=
  default empty_sheet (get_sheet template "Instructions").

(** A validation of the sheet restricts the cell at (row, column). *)
Definition constrained (sh : SavedSheet) (row col : nat) : bool :=
  existsb (fun dv => existsb (fun r => in_range r row col) (sqref dv)) (s_validations sh).

(** The columns a range spans. *)
Definition range_columns (r : CellRange) : list nat :=
  seq (min_col r) (S (max_col r) - min_col r).

Definition range_rows (r : CellRange) : list nat :=
  seq (min_row r) (S (max_row r) - min_row r).

(** The columns of the sheet that carry a validation, in the order the
    validations were added, each once. *)
Definition constrained_columns (sh : SavedSheet) : list nat :=
  remove_dups (dv ← s_validations sh; r ← sqref dv; range_columns r).

(** The list source of a validation: [formula1] read as [Sheet.range]. *)
Definition source_range (dv : DataValidation) : option (string * CellRange) :=
  f ← formula1 dv;
  '(sheet, ref) ← PyStr.split_at "."%char f;
  match range_boundaries ref with
  | inr r => Some (sheet, r)
  | inl _ => None
  end.

(** The values a range of a sheet holds, row by row. *)
Definition range_values (sh : SavedSheet) (r : CellRange) : list string :=
  row ← range_rows r; col ← range_columns r; option_list (cell_value sh row col).

(** The entries a list validation allows: the values of its source range. *)
Definition allowed_values (wb : SavedWorkbook) (dv : DataValidation) : list string :=
  match source_range dv with
  | Some (name, r) =>
      match get_sheet wb name with
      | Some sh => range_values sh r
      | None => []
      end
  | None => []
  end.

(** The validation [create_dropdown] leaves for a column and a source. *)
Definition dropdown (col : nat) (source : string) : DataValidation :=
  mkDataValidation (Some "list") (Some ("Choices." +:+ source)) true
    false false false
    (Some "Please select a value from the dropdown list") (Some "Invalid Entry")
    [mkCellRange col 2 col 1000].

(** The alert a spreadsheet application raises when a value that fails a
    validation is typed into one of its cells: the validation's title and
    text, and only when its [showErrorMessage] attribute is set; without
    it the entry raises no alert. *)
Definition error_alert (dv : DataValidation) : option (option string * option string) :=
  if showErrorMessage dv then Some (dv_errorTitle dv, dv_error dv) else None.

(** Every cell of a sheet lies within [R] rows and [C] columns, and not in
    row or column 0. *)
Definition within (R C : nat) (sh : SavedSheet) : Prop :=
  map_Forall (fun k _ => 1 <= k.1 <= R /\ 1 <= k.2 <= C) (s_cells sh).

#[global] Instance within_dec R C sh : Decision (within R C sh).
Proof. unfold within. apply _. Defined.

(** What the choices loop leaves in the column of a category: the display
    name in row 1, then the items, then nothing. *)
Definition category_column (category : string) (items : list string) (row : nat)
    : option string :=
  match row with
  | 0 => None
  | 1 => Some (PyStr.replace category "_" " ")
  | S (S j) => items !! j
  end.

(** The items of a category of [choices_data]. *)
Definition category_items (category : string) : option (list string) :=
  snd <$> find (fun c => String.eqb c.1 category) choices_data.

(** The header of a column of [Shipments]. *)
Definition column_header (col : nat) : option string := cell_value shipments 1 col.

(** The validation [dv] draws on the category at position [k] of
    [choices_data]: its formula names column [k+1] of [Choices] by its
    letter, from row 2 to row 1 + (number of items), and these rows are
    exactly the rows of that column, below the header, that hold a value. *)
Definition bound_to_category (dv : DataValidation) (k : nat)
    (category : string) (items : list string) : Prop :=
  choices_data !! k = Some (category, items) /\
  exists letter,
    Utils.get_column_letter (S k) = inr letter /\
    formula1 dv =
      Some ("Choices.$" +:+ letter +:+ "$2:$" +:+ letter +:+ "$" +:+
            PyStr.of_nat (1 + length items)) /\
    source_range dv =
      Some ("Choices", mkCellRange (S k) 2 (S k) (1 + length items)) /\
    forall row,
      2 <= row <= 1 + length items <->
      2 <= row /\ is_Some (cell_value choices row (S k)).

(** For each validated cell range of [Shipments]: the header of its column,
    the category its source column belongs to, and the number of rows of
    the source range. *)
Definition binding_summary (dv : DataValidation) : list (string * string * nat) :=
  r ← sqref dv;
  col ← range_columns r;
  match column_header col, source_range dv with
  | Some header, Some (_, src) =>
      match choices_data !! (min_col src - 1) with
      | Some (category, _) => [(header, category, length (range_rows src))]
      | None => []
      end
  | _, _ => []
  end.

(** The cell holds a value that the validation's source list contains. *)
Definition sample_allowed (dv : DataValidation) (row col : nat) : Prop :=
  exists v, cell_value shipments row col = Some v /\ v ∈ allowed_values template dv.

#[global] Instance sample_allowed_dec dv row col : Decision (sample_allowed dv row col).
Proof.
  unfold sample_allowed.
  destruct (cell_value shipments row col) as [v|].
  - destruct (decide (v ∈ allowed_values template dv)) as [Hin|Hout].
    + left. exists v. split; [reflexivity | exact Hin].
    + right. intros (v' & [= <-] & Hin). exact (Hout Hin).
  - right. intros (v' & [=] & _).
Defined.

(** The items of the category at position [k] of [choices_data]. *)
Definition items_at (k : nat) : list string :=
  default [] (snd <$> choices_data !! k).

(** What the import of a module [m] that is not installed raises. *)
Definition module_not_found (m : string) : exn :=
  Exn ModuleNotFoundError ("No module named '" +:+ m +:+ "'").

(** An environment without openpyxl (everything else can be imported). *)
Definition env_without_openpyxl : Env :=
  mkEnv (fun m => if String.prefix "openpyxl" m then Some (module_not_found m) else None)
        None false.

Definition permission_denied : exn :=
  Exn PermissionError
    "[Errno 13] Permission denied: 'Flash_Express_Bulk_Shipments_Template.xlsx'".

(** An environment whose disk refuses the write: the archive cannot even
    be opened. *)
Definition env_read_only : Env :=
  mkEnv (fun _ => None) (Some permission_denied) false.

(** The disk after a write that failed. *)
Definition after_failed_save (env : Env) (fs : gmap string SavedWorkbook)
    : gmap string SavedWorkbook :=
  if archive_opened env then delete filename fs else fs.

(** The columns of [Choices] that some validation formula of [Shipments]
    refers to, in order of first use. *)
Definition referenced_columns : list nat :=
  remove_dups
    (dv ← s_validations shipments;
     match source_range dv with
     | Some (name, r) => if String.eqb name "Choices" then range_columns r else []
     | None => []
     end).

(** The categories, with their columns, that no formula refers to. *)
Definition unreferenced_categories : list (nat * string) :=
  '(col, (category, _)) ← enumerate 1 choices_data;
  if bool_decide (col ∈ referenced_columns) then [] else [(col, category)].

(** The column of [Shipments] under a header. *)
Definition header_column (h : string) : option nat :=
  (fun p => S p.1) <$> list_find (String.eqb h) headers.

(* ------------------------------------------------------------------ *)
(** ** Outcomes of a run *)
(* ------------------------------------------------------------------ *)

(** What the [ImportError] handler prints for an exception [e]. *)
Definition install_hint (e : exn) : list string := [
  "❌ Missing required libraries. Please install them with:";
  "pip install pandas openpyxl";
  "Error: " +:+ exn_str e
].

(** What the [Exception] handler prints for an exception [e]. *)
Definition error_report (e : exn) : list string :=
  ["❌ Error creating template: " +:+ exn_str e].

(** The first module, in the order the import statements ask for them,
    whose import fails. *)
Definition first_missing (env : Env) : option string :=
  find (fun m => negb (importable env m)) required_modules.

(** The exception of the first failing import, in the order the import
    statements ask for the modules. *)
Definition first_import_error (env : Env) : option exn :=
  first_missing env ≫= import_failure env.


(** An environment whose write is interrupted from the keyboard part-way. *)
Definition env_interrupted : Env :=
  mkEnv (fun _ => None) (Some (Exn KeyboardInterrupt "")) true.


(** An environment where pandas is installed but one of its own
    dependencies is not. *)
Definition env_broken_pandas : Env :=
  mkEnv (fun m => if String.eqb m "pandas" then Some (module_not_found "numpy") else None)
        None false.

(** The validation [create_dropdown] builds for a source text, applied to
    the given ranges. *)
Definition list_validation (source : string) (ranges : list CellRange) : DataValidation :=
  mkDataValidation (Some "list") (Some ("Choices." +:+ source)) true
    false false false
    (Some "Please select a value from the dropdown list") (Some "Invalid Entry")
    ranges.

(** The state [create_dropdown] leaves: one validation more on the heap,
    one reference more on the sheet.  [ranges] is what [dv.add] managed to
    record. *)
Definition dropdown_state (sheet : nat) (source : string) (ranges : list CellRange)
    (st : State) : State :=
  mkState
    (alter (with_data_validations (fun l => (l ++ [length (validations st)])%list))
           sheet (worksheets st))
    (validations st ++ [list_validation source ranges])%list
    (workbooks st) (stdout st) (files st).

(** Every validation reference of the sheet points into the heap. *)
Definition validations_allocated (st : State) (w : Worksheet) : Prop :=
  Forall (fun r => r < length (validations st)) (data_validations w).

(** A state with one empty sheet, for trying the helpers on. *)
Definition one_sheet_state : State :=
  mkState [new_worksheet "Shipments"] [] [] [] ∅.

(* ------------------------------------------------------------------ *)
(** ** The loops of the function, for any list they run over *)
(* ------------------------------------------------------------------ *)

(** The header loop (source lines 50-54). *)
Definition write_headers (sheet : ws_ref) (hs : list string) : M unit :=
  for_each (enumerate 1 hs) (fun '(col, header) =>
    cell ← Openpyxl.cell sheet 1 col (Some header);
    ft ← lift (Openpyxl.new_Font true None (Some "FFFFFF"));
    Openpyxl.set_cell_font cell ft;;
    fl ← lift (Openpyxl.new_PatternFill "366092" "366092" "solid");
    Openpyxl.set_cell_fill cell fl;;
    Openpyxl.set_cell_alignment cell (mkAlignment (Some "center") (Some "center") None)).

(** The width loop (source lines 57-59). *)
Definition set_widths (sheet : ws_ref) (widths : list nat) : M unit :=
  for_each (enumerate 1 widths) (fun '(col, width) =>
    letter ← lift (Utils.get_column_letter col);
    Openpyxl.set_column_width sheet letter width).

(** The sample loop (source lines 245-247). *)
Definition write_samples (sheet : ws_ref) (data : list (list string)) : M unit :=
  for_each (enumerate 2 data) (fun '(row_idx, row_data) =>
    for_each (enumerate 1 row_data) (fun '(col_idx, value) =>
      Openpyxl.cell sheet row_idx col_idx (Some value);; mret tt)).

(** The instructions loop (source lines 286-292). *)
Definition write_instructions (sheet : ws_ref) (lines : list string) : M unit :=
  for_each (enumerate 1 lines) (fun '(row, instruction) =>
    cell ← Openpyxl.cell sheet row 1 (Some instruction);
    (if row =? 1 then
       (ft ← lift (Openpyxl.new_Font true (Some 16) (Some "366092"));
        Openpyxl.set_cell_font cell ft)
     else if PyStr.endswith instruction ":" && negb (PyStr.startswith instruction "•") then
       (ft ← lift (Openpyxl.new_Font true None (Some "70AD47"));
        Openpyxl.set_cell_font cell ft)
     else mret tt);;
    Openpyxl.set_cell_alignment cell (mkAlignment None None (Some true))).

(** The state after a sheet was changed by [g]. *)
Definition upd (sheet : nat) (g : Worksheet -> Worksheet) (st : State) : State :=
  set_worksheets (alter g sheet (worksheets st)) st.

(** [g] keeps the title, the state and the validations of a sheet; the cell
    at a key becomes [selc key old], the width under a letter
    [seld letter old], where [old] is what was there. *)
Definition sheet_effect (g : Worksheet -> Worksheet)
    (selc : nat * nat -> option Cell -> option Cell)
    (seld : string -> option nat -> option nat) : Prop :=
  forall w,
    title (g w) = title w /\
    sheet_state (g w) = sheet_state w /\
    data_validations (g w) = data_validations w /\
    (forall k, cells (g w) !! k = selc k (cells w !! k)) /\
    (forall l, column_dimensions (g w) !! l = seld l (column_dimensions w !! l)).

(** [m] always succeeds with [a], and all it does is change [sheet] as
    [selc] and [seld] say. *)
Definition sheet_writes {A} (m : M A) (sheet : nat) (a : A)
    (selc : nat * nat -> option Cell -> option Cell)
    (seld : string -> option nat -> option nat) : Prop :=
  exists g, (forall env st, m env st = (inr a, upd sheet g st)) /\ sheet_effect g selc seld.

(** A header cell: the text, bold white on blue, centred. *)
Definition header_cell (h : string) (old : option Cell) : Cell :=
  set_alignment (mkAlignment (Some "center") (Some "center") None)
    (set_fill (mkPatternFill "00366092" "00366092" "solid")
       (set_font (mkFont true None (Some "00FFFFFF"))
          (set_value h (default empty_cell old)))).

(** The number of characters of a text. *)
Fixpoint character_count (s : string) : N :=
  match s with
  | EmptyString => 0
  | String c s' =>
      if Openpyxl.starts_character c then N.succ (character_count s')
      else character_count s'
  end.

(** A text that a cell stores as it is: at most 32767 characters, none of
    them an illegal control character ([storable_iff]). *)
Definition storable (v : string) : Prop := Openpyxl.check_string v = inr v.

(** A category the choices loop can write: its name, once the underscores
    are spaces, and its items are storable, and the items fit into the
    rows below the header. *)
Definition storable_category (c : string * list string) : Prop :=
  storable (PyStr.replace c.1 "_" " ") /\ Forall storable c.2 /\
  length c.2 < 1048576.

(** A cell given a value keeps the style it had. *)
Definition value_cell (v : string) (old : option Cell) : Cell :=
  set_value v (default empty_cell old).

(** The font the instructions loop gives to the line in [row], if any. *)
Definition instruction_font (row : nat) (line : string) : option Font :=
  if row =? 1 then Some (mkFont true (Some 16) (Some "00366092"))
  else if PyStr.endswith line ":" && negb (PyStr.startswith line "•")
       then Some (mkFont true None (Some "0070AD47"))
       else None.

(** An instruction cell: the text, the font of its kind of line over the
    font it had, wrapped. *)
Definition instruction_cell (row : nat) (line : string) (old : option Cell) : Cell :=
  let c := value_cell line old in
  set_alignment (mkAlignment None None (Some true))
    (match instruction_font row line with
     | Some f => set_font f c
     | None => c
     end).

(** A category header cell of the choices loop: the text, bold white on
    green, centred horizontally. *)
Definition choices_header_cell (name : string) (old : option Cell) : Cell :=
  set_alignment (mkAlignment (Some "center") None None)
    (set_fill (mkPatternFill "0070AD47" "0070AD47" "solid")
       (set_font (mkFont true None (Some "00FFFFFF"))
          (value_cell name old))).

(** What the choices loop makes of the cell in [row] of the column of a
    category, given what the cell held. *)
Definition choices_column_cell (category : string) (items : list string)
    (row : nat) (old : option Cell) : option Cell :=
  match row with
  | 0 => old
  | 1 => Some (choices_header_cell (PyStr.replace category "_" " ") old)
  | S (S j) =>
      match items !! j with
      | Some v => Some (value_cell v old)
      | None => old
      end
  end.

#[global] Instance exn_class_eq_dec : EqDecision exn_class.
Proof. solve_decision. Defined.
#[global] Instance exn_eq_dec : EqDecision exn.
Proof. solve_decision. Defined.

(** The column a letter stands for, when the letter is the name
    [get_column_letter] gives to that column. *)
Definition column_of (letter : string) : option nat :=
  match Utils.column_index_from_string letter with
  | Some c => if bool_decide (Utils.get_column_letter c = inr letter) then Some c else None
  | None => None
  end.

(** The value of column letters read last letter first, A = 1 to Z = 26. *)
Fixpoint letters_value_rev (cs : list ascii) : nat :=
  match cs with
  | [] => 0
  | c :: cs' => (nat_of_ascii c - 64) + 26 * letters_value_rev cs'
  end.

(** The last column that [f] letters can name: 26, 702, 18278. *)
Fixpoint letters_bound (f : nat) : nat :=
  match f with
  | 0 => 0
  | S f' => 26 * letters_bound f' + 26
  end.

Definition is_upper (c : ascii) : bool :=
  (65 <=? nat_of_ascii c) && (nat_of_ascii c <=? 90).

(** [letter] names one of the [n] columns from [start] on. *)
Definition names_column (start n : nat) (letter : string) : bool :=
  existsb (fun i => bool_decide (Utils.get_column_letter i = inr letter)) (seq start n).

(* ------------------------------------------------------------------ *)
(** ** Running the script: stepping lemmas *)
(* ------------------------------------------------------------------ *)

Lemma bind_step {A B} (m : M A) (k : A -> M B) env st a r :
  (m env st).1 = inr a ->
  k a env (m env st).2 = r ->
  (m ≫= k) env st = r.
Proof.
  unfold mbind, M_bind, bind. destruct (m env st) as [[e|a'] st']; simpl.
  - discriminate.
  - intros [= ->]. auto.
Qed.

(** One statement of a straight-line block: its result is computed, the
    state it leaves is kept as it is. *)
Ltac exec_step :=
  lazymatch goal with
  | |- (?m ≫= ?k) ?env ?st = _ =>
      let r := eval vm_compute in ((m env st).1) in
      lazymatch r with
      | inr ?a =>
          apply (bind_step m k env st a); [vm_compute; reflexivity | cbv beta zeta]
      end
  end.

Lemma template_written : (run complete_env ∅).2 !! filename = Some template.
Proof.
  unfold template.
  destruct ((run complete_env ∅).2 !! filename) as [wb|] eqn:E; [reflexivity|].
  apply (f_equal (fun o => bool_decide (is_Some o))) in E.
  vm_compute in E. discriminate.
Qed.

Lemma import_ok (path : list string) (env : Env) (st : State) :
  forallb (importable env) path = true ->
  import path env st = (inr tt, st).
Proof.
  unfold import. induction path as [|m path IH]; simpl; [reflexivity|].
  intros [Hm Hp]%andb_prop. specialize (IH Hp).
  unfold mbind, M_bind, bind, ask in *. cbn beta.
  unfold importable in Hm. destruct (import_failure env m); [discriminate|].
  exact IH.
Qed.

Lemma try_except_ok {A} (body : M A) handlers env st a st' :
  body env st = (inr a, st') ->
  try_except body handlers env st = (inr a, st').
Proof. unfold try_except. intros ->. reflexivity. Qed.

Lemma try_except_caught {A} (body : M A) handlers env st e st' :
  body env st = (inl e, st') ->
  try_except body handlers env st =
    match find (fun h => h.1 e) handlers with
    | Some h => h.2 e env st'
    | None => (inl e, st')
    end.
Proof. unfold try_except. intros ->. reflexivity. Qed.

(** The end of the function, from [wb.save] on. *)
Lemma save_and_report (wb : wb_ref) (w : Workbook) (env : Env) (st : State) :
  workbooks st !! wb = Some w ->
  (Openpyxl.save wb filename;;
   print ("✅ Template created successfully: " +:+ filename);;
   print "📋 The template includes:";;
   print "   • Shipments sheet with dropdown menus";;
   print "   • Choices sheet with all dropdown options";;
   print "   • Instructions sheet with detailed guidance";;
   print "   • Sample data rows for reference") env st =
  match save_failure env with
  | Some e => (inl e, set_files (after_failed_save env (files st)) st)
  | None =>
      (inr tt, mkState (worksheets st) (validations st) (workbooks st)
                 (stdout st ++ success_report)
                 (<[filename := Openpyxl.snapshot st w]> (files st)))
  end.
Proof.
  intros Hw. destruct st as [wss dvs wbs out fs]. cbn [workbooks] in Hw.
  unfold Openpyxl.save, deref, mbind, M_bind, bind, get_state, ask, mret, M_ret, ret,
    raise, modify, print, set_files, after_failed_save.
  cbn [workbooks worksheets validations stdout files]. rewrite Hw.
  destruct (save_failure env) as [e|]; [destruct (archive_opened env); reflexivity|].
  cbn [workbooks worksheets validations stdout files].
  repeat rewrite <- app_assoc. reflexivity.
Qed.

Lemma state_congr ws dvs wbs out out' (f f' : gmap string SavedWorkbook) :
  out = out' -> f = f' ->
  (@inr exn unit tt, mkState ws dvs wbs out f) = (inr tt, mkState ws dvs wbs out' f').
Proof. intros -> ->. reflexivity. Qed.

Lemma saved_eq (a b : SavedWorkbook) : bool_decide (a = b) = true -> a = b.
Proof. apply bool_decide_eq_true_1. Qed.

(** Everything up to [wb.save] touches only the object heaps.  Whatever the
    environment and the disk, the function reaches the save with the
    workbook that [template] records, nothing printed and the disk as it
    was; the save then fails, leaving the disk as a failed write does, or
    writes [template]. *)
Lemma create_bulk_shipments_template_run (env : Env) (fs : gmap string SavedWorkbook) :
  exists S : State,
    create_bulk_shipments_template env (initial_state fs) =
      match save_failure env with
      | Some e => (inl e, set_files (after_failed_save env fs) S)
      | None =>
          (inr tt, mkState (worksheets S) (validations S) (workbooks S)
                     success_report (<[filename := template]> fs))
      end
    /\ stdout S = [] /\ files S = fs.
Proof.
  eexists. split; [|split].
  - unfold create_bulk_shipments_template.
    do 20 exec_step.
    etransitivity;
      [apply (save_and_report 0 (mkWorkbook [1; 2; 3] 0)); vm_compute; reflexivity|].
    destruct (save_failure env) as [e|].
    { apply (f_equal (fun f => (@inl exn unit e, set_files (after_failed_save env f) _))).
      vm_compute. reflexivity. }
    apply state_congr.
    + vm_compute. reflexivity.
    + apply (f_equal2 (insert (M:=gmap string SavedWorkbook) filename)).
      * apply saved_eq. vm_compute. reflexivity.
      * vm_compute. reflexivity.
  - vm_compute. reflexivity.
  - vm_compute. reflexivity.
Qed.

Lemma bind_eq {A B} (m : M A) (k : A -> M B) env st a st' :
  m env st = (inr a, st') -> (m ≫= k) env st = k a env st'.
Proof. unfold mbind, M_bind, bind. intros ->. reflexivity. Qed.

Lemma bind_eq_raise {A B} (m : M A) (k : A -> M B) env st e st' :
  m env st = (inl e, st') -> (m ≫= k) env st = (inl e, st').
Proof. unfold mbind, M_bind, bind. intros ->. reflexivity. Qed.

(** With every module importable the six import statements fall through to
    the [__main__] block. *)
Lemma script_imports_ok (env : Env) (st : State) :
  imports_ok env = true ->
  script true env st =
    try_except create_bulk_shipments_template [
      (is_ImportError, fun e =>
         print "❌ Missing required libraries. Please install them with:";;
         print "pip install pandas openpyxl";;
         print ("Error: " +:+ exn_str e));
      (is_Exception, fun e =>
         print ("❌ Error creating template: " +:+ exn_str e))
    ] env st.
Proof.
  unfold imports_ok, required_modules. cbn [forallb].
  intros H. repeat (apply andb_prop in H; destruct H as [? H]).
  unfold script.
  do 6 (erewrite bind_eq;
        [| apply import_ok; cbn [forallb];
           repeat (apply andb_true_intro; split); (assumption || reflexivity)]).
  reflexivity.
Qed.

(** A complete environment: the file is written and the report printed. *)
Lemma run_success (env : Env) (fs : gmap string SavedWorkbook) :
  imports_ok env = true ->
  save_failure env = None ->
  run env fs = (ExitedNormally, success_report, <[filename := template]> fs).
Proof.
  intros Himp Hsave. unfold run. rewrite (script_imports_ok _ _ Himp).
  destruct (create_bulk_shipments_template_run env fs) as (S & Hrun & _ & _).
  rewrite Hsave in Hrun.
  rewrite (try_except_ok _ _ _ _ _ _ Hrun). reflexivity.
Qed.

(** The write fails with an exception [e] deriving from [Exception] but not
    from [ImportError]: the second handler prints its message; the run
    still ends normally and the disk is as the failed write left it. *)
Lemma run_save_failure (env : Env) (fs : gmap string SavedWorkbook) (e : exn) :
  imports_ok env = true ->
  save_failure env = Some e ->
  is_ImportError e = false ->
  is_Exception e = true ->
  run env fs = (ExitedNormally, ["❌ Error creating template: " +:+ exn_str e],
                after_failed_save env fs).
Proof.
  intros Himp Hsave Hie Hex. unfold run. rewrite (script_imports_ok _ _ Himp).
  destruct (create_bulk_shipments_template_run env fs) as (S & Hrun & Hout & Hfs).
  rewrite Hsave in Hrun.
  rewrite (try_except_caught _ _ _ _ _ _ Hrun).
  cbn [find fst snd]. rewrite Hie, Hex. cbn [snd].
  unfold print, set_files. cbn [stdout files]. rewrite Hout. reflexivity.
Qed.

(* ------------------------------------------------------------------ *)
(** ** Facts about the generated workbook shared by the proofs *)
(* ------------------------------------------------------------------ *)

Lemma template_sheets : s_sheets template = [shipments; choices; instructions_sheet].
Proof.
  refine (bool_decide_eq_true_1 (s_sheets template = _) _).
  vm_compute. reflexivity.
Qed.

Lemma shipments_validations :
  s_validations shipments = [
    dropdown 1 "$A$2:$A$4";
    dropdown 14 "$B$2:$B$4";
    dropdown 8 "$C$2:$C$11";
    dropdown 12 "$C$2:$C$11";
    dropdown 4 "$G$2:$G$26";
    dropdown 5 "$H$2:$H$15";
    dropdown 16 "$I$2:$I$3"
  ].
Proof. vm_compute. reflexivity. Qed.

Lemma within_outside R C sh row col :
  within R C sh -> ~ (1 <= row <= R /\ 1 <= col <= C) -> cell_value sh row col = None.
Proof.
  intros Hw Hout. unfold cell_value.
  destruct (s_cells sh !! (row, col)) as [c|] eqn:E; [|reflexivity].
  exfalso. apply Hout. exact (Hw _ _ E).
Qed.

Lemma shipments_within : within 3 19 shipments.
Proof. refine (bool_decide_unpack (within _ _ _) _). vm_compute. exact I. Qed.

Lemma choices_within : within 26 11 choices.
Proof. refine (bool_decide_unpack (within _ _ _) _). vm_compute. exact I. Qed.

(** A row of a sheet read against a table: the cells of the row inside the
    sheet's bounding box are compared one by one, the others are empty. *)
Lemma row_table sh R C row (f : nat -> option string) :
  within R C sh ->
  Forall (fun col => cell_value sh row col = f col) (seq 0 (S C)) ->
  (forall col, C < col -> f col = None) ->
  forall col, cell_value sh row col = f col.
Proof.
  intros Hw Htab Hout col.
  destruct (decide (col <= C)) as [Hle|Hgt].
  - rewrite Forall_forall in Htab. apply Htab, elem_of_seq. lia.
  - rewrite Hout by lia. apply (within_outside R C); [assumption | lia].
Qed.

(** The same for a column. *)
Lemma column_table sh R C col (f : nat -> option string) :
  within R C sh ->
  Forall (fun row => cell_value sh row col = f row) (seq 0 (S R)) ->
  (forall row, R < row -> f row = None) ->
  forall row, cell_value sh row col = f row.
Proof.
  intros Hw Htab Hout row.
  destruct (decide (row <= R)) as [Hle|Hgt].
  - rewrite Forall_forall in Htab. apply Htab, elem_of_seq. lia.
  - rewrite Hout by lia. apply (within_outside R C); [assumption | lia].
Qed.

Lemma category_column_below category (items : list string) row :
  1 + length items < row -> category_column category items row = None.
Proof.
  intros H. destruct row as [|[|j]]; [lia..|].
  simpl. apply lookup_ge_None. lia.
Qed.

Ltac by_computation :=
  lazymatch goal with
  | |- ?P => refine (bool_decide_unpack P _); vm_compute; exact I
  end.

Lemma choices_columns :
  Forall (fun '(col, (category, items)) =>
            forall row, cell_value choices row col = category_column category items row)
         (enumerate 1 choices_data).
Proof.
  cbn [enumerate choices_data].
  repeat apply Forall_cons_2; try apply Forall_nil_2;
    (intros row; apply (column_table choices 26 11);
      [ exact choices_within
      | by_computation
      | intros r Hr; apply category_column_below; simpl; lia ]).
Qed.

Lemma in_range_column c lo hi row col :
  in_range (mkCellRange c lo c hi) row col = true <-> col = c /\ lo <= row <= hi.
Proof.
  unfold in_range. cbn [min_row max_row min_col max_col].
  rewrite !andb_true_iff, !Nat.leb_le. lia.
Qed.

(* ------------------------------------------------------------------ *)
(** ** The sheets of the workbook *)
(* ------------------------------------------------------------------ *)

(** C3.  The generated workbook has exactly three sheets, titled
    [Shipments], [Choices] and [Instructions] (the default sheet that
    [Workbook()] creates is removed first), and the sheet shown on opening
    is [Shipments]. *)
Theorem C3_three_sheets_shipments_active :
  sheet_titles template = ["Shipments"; "Choices"; "Instructions"] /\
  length (s_sheets template) = 3 /\
  active_sheet template = Some shipments /\
  s_title shipments = "Shipments".
Proof.
  unfold sheet_titles, active_sheet. rewrite template_sheets.
  repeat split; vm_compute; reflexivity.
Qed.

(* ------------------------------------------------------------------ *)
(** ** The header row of Shipments *)
(* ------------------------------------------------------------------ *)

(** C4.  Row 1 of [Shipments] holds the 19 header strings, one per column
    in columns 1 to 19 and in the order of [headers], from "Client Email"
    in A1 to "Notes" in column 19; every other cell of row 1 is empty. *)
Theorem C4_header_row :
  length headers = 19 /\
  (forall col,
     cell_value shipments 1 col =
       match col with 0 => None | S i => headers !! i end) /\
  cell_value shipments 1 1 = Some "Client Email" /\
  cell_value shipments 1 19 = Some "Notes".
Proof.
  split; [reflexivity|]. split; [|split; vm_compute; reflexivity].
  apply (row_table shipments 3 19).
  - exact shipments_within.
  - by_computation.
  - intros [|i] Hi; [lia|]. apply lookup_ge_None. simpl. lia.
Qed.

(* ------------------------------------------------------------------ *)
(** ** The columns of Choices *)
(* ------------------------------------------------------------------ *)

(** C5.  On [Choices] the categories of [choices_data] take one column
    each, in order from column 1: the category name with underscores turned
    into spaces in row 1, its N items in rows 2 to N+1 without a gap, and
    nothing below; no cell lies outside these columns.  Cities has 10
    items, Package_Values 14, and A1 is "Client Emails". *)
Theorem C5_choices_columns :
  Forall (fun '(col, (category, items)) =>
            forall row,
              cell_value choices row col =
                match row with
                | 0 => None
                | 1 => Some (PyStr.replace category "_" " ")
                | S (S j) => items !! j
                end)
         (enumerate 1 choices_data) /\
  (forall row col,
     ~ (1 <= col <= length choices_data) -> cell_value choices row col = None) /\
  length <$> category_items "Cities" = Some 10 /\
  length <$> category_items "Package_Values" = Some 14 /\
  cell_value choices 1 1 = Some "Client Emails".
Proof.
  split; [exact choices_columns|].
  split; [|repeat split; vm_compute; reflexivity].
  intros row col Hcol. apply (within_outside 26 11); [exact choices_within|].
  change (length choices_data) with 11 in Hcol. lia.
Qed.

(* ------------------------------------------------------------------ *)
(** ** The error message of the dropdowns *)
(* ------------------------------------------------------------------ *)

(** Whatever its arguments, [create_dropdown] allocates a validation that
    carries the fixed message, attached to the sheet it is given; the
    switch that makes an application show the message stays off. *)
Lemma create_dropdown_message sheet column_letter start_row end_row choices_range
    env st st' :
  create_dropdown sheet column_letter start_row end_row choices_range env st
    = (inr tt, st') ->
  exists dv,
    validations st' !! length (validations st) = Some dv /\
    dv_error dv = Some "Please select a value from the dropdown list" /\
    dv_errorTitle dv = Some "Invalid Entry" /\
    dv_type dv = Some "list" /\
    formula1 dv = Some ("Choices." +:+ choices_range) /\
    showErrorMessage dv = false.
Proof.
  unfold create_dropdown, Openpyxl.add.
  destruct (CellRange_of_string _) as [e|cr]; destruct st as [wss dvs wbs out fs];
    unfold Openpyxl.new_DataValidation, Openpyxl.set_error, Openpyxl.set_errorTitle,
      Openpyxl.add_data_validation, alloc_dv, update_dv, update_ws, modify, lift,
      get_state, put_state, raise, mbind, M_bind, bind, mret, M_ret, ret;
    cbn [validations worksheets workbooks stdout files set_validations set_worksheets];
    [discriminate|].
  intros [= <-]. unfold set_validations, set_worksheets. cbn [validations].
  rewrite !list_lookup_alter_eq, lookup_app_r, Nat.sub_diag by reflexivity.
  cbn. eexists. split; [reflexivity|]. repeat split.
Qed.

(** C9.  Each of the seven validations of [Shipments] stores the error
    title "Invalid Entry" and the error text "Please select a value from
    the dropdown list", but none has [showErrorMessage] set: an invalid
    entry raises no alert, so the stored title and text are never
    displayed. *)
Theorem C9_message_stored_but_never_shown :
  length (s_validations shipments) = 7 /\
  Forall (fun dv =>
            dv_errorTitle dv = Some "Invalid Entry" /\
            dv_error dv = Some "Please select a value from the dropdown list" /\
            showErrorMessage dv = false /\
            error_alert dv = None)
         (s_validations shipments).
Proof.
  rewrite shipments_validations. split; [reflexivity|].
  repeat apply Forall_cons_2; try apply Forall_nil_2; repeat split.
Qed.

(* ------------------------------------------------------------------ *)
(** ** The ranges the dropdowns cover on Shipments *)
(* ------------------------------------------------------------------ *)

(** A sheet whose validations are dropdowns on the columns [cols]
    constrains exactly the rows 2 to 1000 of these columns. *)
Lemma constrained_dropdowns (l : list (nat * string)) sh row col :
  s_validations sh = (fun b => dropdown b.1 b.2) <$> l ->
  constrained sh row col = true <-> col ∈ l.*1 /\ 2 <= row <= 1000.
Proof.
  unfold constrained. intros ->.
  induction l as [|[c src] l IH]; cbn [fmap list_fmap existsb fst snd].
  - rewrite elem_of_nil. split; [discriminate | tauto].
  - rewrite orb_true_iff, IH. unfold dropdown at 1. cbn [sqref existsb].
    rewrite orb_false_r, in_range_column, elem_of_cons. tauto.
Qed.

Lemma constrained_shipments row col :
  constrained shipments row col = true <->
  col ∈ [1; 14; 8; 12; 4; 5; 16] /\ 2 <= row <= 1000.
Proof.
  apply (constrained_dropdowns
           [(1, "$A$2:$A$4"); (14, "$B$2:$B$4"); (8, "$C$2:$C$11");
            (12, "$C$2:$C$11"); (4, "$G$2:$G$26"); (5, "$H$2:$H$15");
            (16, "$I$2:$I$3")]).
  exact shipments_validations.
Qed.

(** C2, as the code has it.  Seven columns of [Shipments] carry a list
    validation: A, N, H, L, D, E and P, that is Client Email, Payment
    Method, From City, To City, Package Description, Package Value (EGP)
    and Is Large Order.  Each validation covers rows 2 to 1000 of its one
    column and nothing else, so a cell is constrained exactly when it lies
    in one of these columns and in rows 2 to 1000; row 1001 is
    unconstrained in every column. *)
Theorem C2_dropdown_ranges :
  constrained_columns shipments = [1; 14; 8; 12; 4; 5; 16] /\
  omap column_header (constrained_columns shipments) =
    ["Client Email"; "Payment Method"; "From City"; "To City";
     "Package Description"; "Package Value (EGP)"; "Is Large Order"] /\
  Forall (fun dv =>
            dv_type dv = Some "list" /\
            exists col, sqref dv = [mkCellRange col 2 col 1000])
         (s_validations shipments) /\
  (forall row col,
     constrained shipments row col = true <->
     col ∈ constrained_columns shipments /\ 2 <= row <= 1000) /\
  (forall col, constrained shipments 1000 col = true <->
               col ∈ constrained_columns shipments) /\
  (forall col, constrained shipments 1001 col = false) /\
  (forall col, constrained shipments 1 col = false).
Proof.
  assert (Hcols : constrained_columns shipments = [1; 14; 8; 12; 4; 5; 16])
    by (vm_compute; reflexivity).
  rewrite Hcols.
  split; [reflexivity|]. split; [vm_compute; reflexivity|]. split; [|split; [|split; [|split]]].
  - rewrite shipments_validations.
    repeat apply Forall_cons_2; try apply Forall_nil_2;
      (split; [reflexivity | eexists; reflexivity]).
  - exact constrained_shipments.
  - intros col. rewrite constrained_shipments.
    assert (2 <= 1000) by (apply Nat.leb_le; vm_compute; reflexivity). intuition lia.
  - intros col. apply not_true_is_false. rewrite constrained_shipments.
    assert (~ 1001 <= 1000)
      by (intros Hle; apply Nat.leb_le in Hle; vm_compute in Hle; discriminate).
    tauto.
  - intros col. apply not_true_is_false. rewrite constrained_shipments. lia.
Qed.

(** C2, as stated: the count of six columns fails, the validations sit on
    seven distinct columns (From City and To City are two columns sharing
    one source list). *)
Lemma C2_six_columns_counterexample :
  length (constrained_columns shipments) = 7 /\
  length (constrained_columns shipments) <> 6 /\
  NoDup (constrained_columns shipments) /\
  Forall (fun col => constrained shipments 2 col = true) [1; 4; 5; 8; 12; 14; 16].
Proof.
  assert (Hcols : constrained_columns shipments = [1; 14; 8; 12; 4; 5; 16])
    by (vm_compute; reflexivity).
  rewrite Hcols. split; [reflexivity|]. split; [discriminate|]. split.
  - by_computation.
  - repeat apply Forall_cons_2; try apply Forall_nil_2; vm_compute; reflexivity.
Qed.

(* ------------------------------------------------------------------ *)
(** ** The source ranges on Choices *)
(* ------------------------------------------------------------------ *)

Lemma enumerate_lookup {A} (l : list A) start k x :
  l !! k = Some x -> (start + k, x) ∈ enumerate start l.
Proof.
  revert start k. induction l as [|y l IH]; intros start k; [done|].
  destruct k as [|k]; simpl.
  - intros [= ->]. rewrite Nat.add_0_r. left.
  - intros Hk. right. replace (start + S k) with (S start + k) by lia.
    apply IH, Hk.
Qed.

Lemma category_rows k category (items : list string) row :
  choices_data !! k = Some (category, items) ->
  2 <= row <= 1 + length items <->
  2 <= row /\ is_Some (cell_value choices row (S k)).
Proof.
  intros Hk.
  assert (Hcol : forall r, cell_value choices r (S k) = category_column category items r).
  { pose proof choices_columns as H. rewrite Forall_forall in H.
    apply (H (1 + k, (category, items))), enumerate_lookup, Hk. }
  rewrite Hcol. destruct row as [|[|j]]; simpl.
  - lia.
  - lia.
  - rewrite lookup_lt_is_Some. lia.
Qed.

(** C1.  Each dropdown of [Shipments] takes its list from the column of
    [Choices] that holds one category of [choices_data], named by position
    (first category column A, second B, ...), from row 2 to row
    1 + (item count), which are exactly the rows of that column holding the
    category's values: Client Email 3 rows, Payment Method 3, From City and
    To City 10, Package Description 25, Package Value 14 and Is Large
    Order 2. *)
Theorem C1_source_ranges_match_categories :
  Forall (fun dv => exists k category items, bound_to_category dv k category items)
         (s_validations shipments) /\
  s_validations shipments ≫= binding_summary =
    [ ("Client Email", "Client_Emails", 3);
      ("Payment Method", "Payment_Methods", 3);
      ("From City", "Cities", 10);
      ("To City", "Cities", 10);
      ("Package Description", "Package_Descriptions", 25);
      ("Package Value (EGP)", "Package_Values", 14);
      ("Is Large Order", "Large_Order_Options", 2) ].
Proof.
  split; [|vm_compute; reflexivity].
  rewrite shipments_validations.
  assert (Hbound : forall dv k,
            (exists category items letter,
               choices_data !! k = Some (category, items) /\
               Utils.get_column_letter (S k) = inr letter /\
               formula1 dv =
                 Some ("Choices.$" +:+ letter +:+ "$2:$" +:+ letter +:+ "$" +:+
                       PyStr.of_nat (1 + length items)) /\
               source_range dv =
                 Some ("Choices", mkCellRange (S k) 2 (S k) (1 + length items))) ->
            exists k category items, bound_to_category dv k category items).
  { intros dv k (category & items & letter & Hk & Hl & Hf & Hs).
    exists k, category, items. split; [exact Hk|]. exists letter.
    split; [exact Hl|]. split; [exact Hf|]. split; [exact Hs|].
    intros row. exact (category_rows k category items row Hk). }
  repeat apply Forall_cons_2; try apply Forall_nil_2.
  - apply (Hbound _ 0). do 3 eexists. repeat split; vm_compute; reflexivity.
  - apply (Hbound _ 1). do 3 eexists. repeat split; vm_compute; reflexivity.
  - apply (Hbound _ 2). do 3 eexists. repeat split; vm_compute; reflexivity.
  - apply (Hbound _ 2). do 3 eexists. repeat split; vm_compute; reflexivity.
  - apply (Hbound _ 6). do 3 eexists. repeat split; vm_compute; reflexivity.
  - apply (Hbound _ 7). do 3 eexists. repeat split; vm_compute; reflexivity.
  - apply (Hbound _ 8). do 3 eexists. repeat split; vm_compute; reflexivity.
Qed.

(* ------------------------------------------------------------------ *)
(** ** The sample rows *)
(* ------------------------------------------------------------------ *)

(** C6.  The two sample records are written to rows 2 and 3 of
    [Shipments], and in every column that carries a dropdown both rows lie
    in the validated range and hold a value of that dropdown's list; the
    lists are the items of Client_Emails, Payment_Methods, Cities (twice),
    Package_Descriptions, Package_Values and Large_Order_Options. *)
Theorem C6_samples_satisfy_dropdowns :
  Forall (fun '(row, data) =>
            Forall (fun '(col, v) => cell_value shipments row col = Some v)
                   (enumerate 1 data))
         (enumerate 2 sample_data) /\
  Forall (fun dv =>
            Forall (fun r =>
                      Forall (fun row =>
                                Forall (fun col =>
                                          in_range r row col = true /\
                                          sample_allowed dv row col)
                                       (range_columns r))
                             [2; 3])
                   (sqref dv))
         (s_validations shipments) /\
  allowed_values template <$> s_validations shipments =
    items_at <$> [0; 1; 2; 2; 6; 7; 8].
Proof.
  split; [|split].
  - by_computation.
  - by_computation.
  - vm_compute. reflexivity.
Qed.

(* ------------------------------------------------------------------ *)
(** ** Determinism *)
(* ------------------------------------------------------------------ *)

(** C7.  Two successful runs, in whatever environments and over whatever
    disks, write the same workbook, [template]: the same sheets, cells,
    validation ranges and formulas.  They end the same way and print the
    same report, and running again over the result of a run changes
    nothing. *)
Theorem C7_deterministic_and_idempotent
    (env1 env2 : Env) (fs1 fs2 : gmap string SavedWorkbook) :
  imports_ok env1 = true -> save_failure env1 = None ->
  imports_ok env2 = true -> save_failure env2 = None ->
  (run env1 fs1).2 !! filename = Some template /\
  (run env2 fs2).2 !! filename = (run env1 fs1).2 !! filename /\
  (run env2 fs2).1 = (run env1 fs1).1 /\
  run env2 (run env1 fs1).2 = run env1 fs1.
Proof.
  intros Hi1 Hs1 Hi2 Hs2.
  rewrite !(run_success env1) by assumption.
  rewrite !(run_success env2) by assumption.
  cbn [fst snd]. rewrite !lookup_insert_eq, insert_insert_eq. done.
Qed.

(** C7 at the complete environment and an empty disk, twice. *)
Lemma C7_deterministic_and_idempotent_witness :
  imports_ok complete_env = true /\ save_failure complete_env = None /\
  ((run complete_env ∅).2 !! filename = Some template /\
   (run complete_env ∅).2 !! filename = (run complete_env ∅).2 !! filename /\
   (run complete_env ∅).1 = (run complete_env ∅).1 /\
   run complete_env (run complete_env ∅).2 = run complete_env ∅).
Proof.
  split; [reflexivity|]. split; [reflexivity|].
  apply (C7_deterministic_and_idempotent complete_env complete_env ∅ ∅);
    reflexivity.
Defined.

(* ------------------------------------------------------------------ *)
(** ** Failures *)
(* ------------------------------------------------------------------ *)

Lemma import_fails (path : list string) (env : Env) (st : State) :
  forallb (importable env) path = false ->
  exists m e, m ∈ path /\ import_failure env m = Some e /\
              import path env st = (inl e, st).
Proof.
  unfold import. induction path as [|p path IH]; simpl; [discriminate|].
  intros H. unfold importable in H at 1.
  destruct (import_failure env p) as [e|] eqn:Hp.
  - exists p, e. split; [by left|]. split; [exact Hp|].
    unfold mbind, M_bind, bind, ask. cbn beta. rewrite Hp. reflexivity.
  - destruct (IH H) as (m & e & Hin & Hm & Hrun). exists m, e.
    split; [by right|]. split; [exact Hm|].
    unfold mbind, M_bind, bind, ask in *. cbn beta. rewrite Hp. exact Hrun.
Qed.

(** One import statement of the module body: either it succeeds and the
    next statement runs, or it raises and the module body stops there. *)
Ltac import_statement :=
  lazymatch goal with
  | |- exists m e, _ /\ (import ?path ≫= ?k) ?env ?st = _ =>
      let E := fresh "E" in
      destruct (forallb (importable env) path) eqn:E;
      [ rewrite (bind_eq _ _ _ _ _ _ (import_ok path env st E))
      | let m := fresh "m" in
        let e := fresh "e" in
        let Hm := fresh "Hm" in
        let Hf := fresh "Hf" in
        destruct (import_fails path env st E) as (m & e & _ & Hf & Hm);
        exists m, e; split; [exact Hf|];
        rewrite (bind_eq_raise _ _ _ _ _ _ Hm); reflexivity ]
  end.

(** A failing import stops the module body at its import statement, which
    stands before the [try]: the exception leaves the script. *)
Lemma script_import_failure (env : Env) (st : State) :
  imports_ok env = false ->
  exists m e, import_failure env m = Some e /\
              script true env st = (inl e, st).
Proof.
  intros H. unfold script.
  do 6 import_statement.
  exfalso. unfold imports_ok, required_modules in H. cbn [forallb] in *.
  repeat match goal with
         | E : _ && _ = true |- _ => apply andb_prop in E; destruct E
         end.
  repeat match goal with
         | E : importable _ _ = true |- _ => rewrite E in H; clear E
         end.
  discriminate H.
Qed.

(** Run as a program where an import fails: nothing is printed, nothing is
    written, and the interpreter ends with the uncaught exception. *)
Lemma run_import_failure (env : Env) (fs : gmap string SavedWorkbook) :
  imports_ok env = false ->
  exists m e, import_failure env m = Some e /\
              run env fs = (UncaughtException e, [], fs).
Proof.
  intros H.
  destruct (script_import_failure env (initial_state fs) H) as (m & e & Hm & Hrun).
  exists m, e. split; [exact Hm|]. unfold run. rewrite Hrun. reflexivity.
Qed.

(** C8 fails on the code where the spreadsheet library cannot be imported:
    the [import] statements stand at module level, before the [try] of the
    [__main__] block, so the [ImportError] handler with the install hint is
    never reached; the run prints nothing and ends with an uncaught
    [ModuleNotFoundError]. *)
Theorem C8_missing_library_is_uncaught :
  run env_without_openpyxl ∅ =
    (UncaughtException (Exn ModuleNotFoundError "No module named 'openpyxl'"), [], ∅) /\
  is_ImportError (Exn ModuleNotFoundError "No module named 'openpyxl'") = true.
Proof. split; vm_compute; reflexivity. Qed.

(** The other half of C8 holds: a failing write is reported with its
    message and the run ends normally. *)
Lemma run_read_only :
  run env_read_only ∅ =
    (ExitedNormally,
     ["❌ Error creating template: [Errno 13] Permission denied: 'Flash_Express_Bulk_Shipments_Template.xlsx'"],
     ∅).
Proof.
  exact (run_save_failure env_read_only ∅ permission_denied
           eq_refl eq_refl eq_refl eq_refl).
Qed.

(* ------------------------------------------------------------------ *)
(** ** Categories no dropdown uses *)
(* ------------------------------------------------------------------ *)

(** C10.  [Choices] has eleven category columns, A to K.  The validation
    formulas refer to six of them: A, B, C, G, H and I (Client Emails,
    Payment Methods, Cities, Package Descriptions, Package Values, Large
    Order Options).  The other five, Cairo Zones, Alexandria Zones, Giza
    Zones, Street Examples and Building Details, hold ten items each and
    no formula refers to them; the street, details and zone columns of
    [Shipments] carry no validation in any row. *)
Theorem C10_unbound_categories :
  length choices_data = 11 /\
  Forall (fun '(col, (category, _)) =>
            cell_value choices 1 col = Some (PyStr.replace category "_" " "))
         (enumerate 1 choices_data) /\
  (forall row col, ~ (1 <= col <= 11) -> cell_value choices row col = None) /\
  referenced_columns = [1; 2; 3; 7; 8; 9] /\
  Utils.get_column_letter <$> referenced_columns =
    inr <$> ["A"; "B"; "C"; "G"; "H"; "I"] /\
  omap (cell_value choices 1) referenced_columns =
    ["Client Emails"; "Payment Methods"; "Cities"; "Package Descriptions";
     "Package Values"; "Large Order Options"] /\
  unreferenced_categories =
    [(4, "Cairo_Zones"); (5, "Alexandria_Zones"); (6, "Giza_Zones");
     (10, "Street_Examples"); (11, "Building_Details")] /\
  Forall (fun '(col, _) =>
            Forall (fun row => is_Some (cell_value choices row col)) (seq 1 11))
         unreferenced_categories /\
  header_column <$> ["From Street"; "From Details"; "From Zone";
                     "To Street"; "To Details"; "To Zone"] =
    Some <$> [6; 7; 9; 10; 11; 13] /\
  Forall (fun col => forall row, constrained shipments row col = false)
         [6; 7; 9; 10; 11; 13].
Proof.
  split; [reflexivity|].
  split; [by_computation|].
  split.
  { intros row col Hcol. apply (within_outside 26 11); [exact choices_within | lia]. }
  split; [vm_compute; reflexivity|].
  split; [vm_compute; reflexivity|].
  split; [vm_compute; reflexivity|].
  split; [vm_compute; reflexivity|].
  split; [by_computation|].
  split; [vm_compute; reflexivity|].
  repeat apply Forall_cons_2; try apply Forall_nil_2;
    (intros row; apply not_true_is_false; rewrite constrained_shipments;
     rewrite !elem_of_cons, elem_of_nil; lia).
Qed.

(* ------------------------------------------------------------------ *)
(** ** Every way a run can end *)
(* ------------------------------------------------------------------ *)

Lemma first_missing_none (env : Env) :
  first_missing env = None -> imports_ok env = true.
Proof.
  unfold first_missing, imports_ok. induction required_modules as [|m l IH]; simpl.
  - reflexivity.
  - destruct (importable env m); simpl; [exact IH | discriminate].
Qed.

Lemma first_missing_some (env : Env) (m : string) :
  first_missing env = Some m -> imports_ok env = false /\ importable env m = false.
Proof.
  unfold first_missing, imports_ok. induction required_modules as [|m' l IH]; simpl.
  - discriminate.
  - destruct (importable env m') eqn:E; simpl.
    + exact IH.
    + intros [= <-]. split; [reflexivity | exact E].
Qed.

Lemma first_import_error_none (env : Env) :
  first_import_error env = None -> first_missing env = None.
Proof.
  unfold first_import_error. destruct (first_missing env) as [m|] eqn:Hm; [|reflexivity].
  destruct (first_missing_some env m Hm) as [_ H]. unfold importable in H.
  simpl. destruct (import_failure env m); [discriminate | discriminate H].
Qed.

(** The exception that ends the module body is the one raised by the first
    failing module in import order. *)
Lemma script_first_missing (env : Env) (st : State) (m : string) (e : exn) :
  first_missing env = Some m ->
  import_failure env m = Some e ->
  script true env st = (inl e, st).
Proof.
  unfold first_missing, required_modules, script, importable.
  cbn [find].
  repeat
    (lazymatch goal with
     | |- context [match import_failure env ?x with _ => _ end] =>
         let E := fresh "E" in
         destruct (import_failure env x) eqn:E; cbn [negb]
     end);
  try discriminate; intros [= <-] He;
  match goal with
  | E : import_failure env ?x = Some _ |- _ => rewrite E in He; injection He as <-
  end;
  repeat
    (first
       [ erewrite bind_eq;
         [| apply import_ok; cbn [forallb]; unfold importable;
            repeat match goal with E : import_failure env _ = _ |- _ => rewrite E end;
            reflexivity]
       | erewrite bind_eq_raise; [reflexivity|];
         unfold import; cbn [for_each];
         unfold mbind, M_bind, bind, ask, mret, M_ret, ret, raise;
         cbn beta;
         repeat match goal with E : import_failure env _ = _ |- _ => rewrite E end;
         reflexivity ]).
Qed.

(** A run, case by case: a failing import, a write that succeeds, and a
    write that raises an [ImportError], another [Exception], or something
    that is no [Exception]. *)
Lemma run_cases (env : Env) (fs : gmap string SavedWorkbook) :
  run env fs =
    match first_import_error env with
    | Some e => (UncaughtException e, [], fs)
    | None =>
        match save_failure env with
        | None => (ExitedNormally, success_report, <[filename := template]> fs)
        | Some e =>
            if is_ImportError e
            then (ExitedNormally, install_hint e, after_failed_save env fs)
            else if is_Exception e
            then (ExitedNormally, error_report e, after_failed_save env fs)
            else (UncaughtException e, [], after_failed_save env fs)
        end
    end.
Proof.
  destruct (first_import_error env) as [e|] eqn:He.
  - unfold first_import_error in He.
    destruct (first_missing env) as [m|] eqn:Hm; [|discriminate He]. simpl in He.
    unfold run. rewrite (script_first_missing env _ m e Hm He). reflexivity.
  - apply first_import_error_none, first_missing_none in He.
    destruct (save_failure env) as [e|] eqn:Hs; [|apply run_success; assumption].
    unfold run. rewrite (script_imports_ok _ _ He).
    destruct (create_bulk_shipments_template_run env fs) as (S & Hrun & Hout & Hfs).
    rewrite Hs in Hrun. rewrite (try_except_caught _ _ _ _ _ _ Hrun).
    cbn [find fst snd].
    destruct (is_ImportError e); [|destruct (is_Exception e)]; cbn [snd].
    + unfold print, mbind, M_bind, bind, set_files. cbn [stdout files].
      rewrite Hout. reflexivity.
    + unfold print, set_files. cbn [stdout files]. rewrite Hout. reflexivity.
    + unfold set_files. cbn [stdout files]. rewrite Hout. reflexivity.
Qed.

Lemma first_import_error_missing (env : Env) (m : string) (e : exn) :
  first_missing env = Some m -> import_failure env m = Some e ->
  first_import_error env = Some e.
Proof. unfold first_import_error. intros -> H. exact H. Qed.

Lemma first_import_error_ok (env : Env) :
  first_missing env = None -> first_import_error env = None.
Proof. unfold first_import_error. intros ->. reflexivity. Qed.

(* ------------------------------------------------------------------ *)
(** ** The range text of a dropdown reads back *)
(* ------------------------------------------------------------------ *)

Lemma append_cons (x : ascii) (a b : string) : String x a +:+ b = String x (a +:+ b).
Proof. reflexivity. Qed.

Lemma list_ascii_of_string_app (a b : string) :
  list_ascii_of_string (a +:+ b) = (list_ascii_of_string a ++ list_ascii_of_string b)%list.
Proof.
  induction a as [|c a IH]; [reflexivity|].
  change (list_ascii_of_string (String c (a +:+ b))
          = c :: (list_ascii_of_string a ++ list_ascii_of_string b)%list).
  cbn [list_ascii_of_string]. by rewrite IH.
Qed.

Lemma uint_digits (d : Decimal.uint) :
  forallb Utils.is_digit (list_ascii_of_string (NilEmpty.string_of_uint d)) = true.
Proof. induction d; simpl; auto. Qed.

Lemma uint_value (d : Decimal.uint) (acc : nat) :
  fold_left (fun acc c => acc * 10 + (nat_of_ascii c - 48))
            (list_ascii_of_string (NilEmpty.string_of_uint d)) acc
  = Nat.of_uint_acc d acc.
Proof.
  revert acc. induction d; intros acc; cbn [NilEmpty.string_of_uint list_ascii_of_string fold_left Nat.of_uint_acc];
    [reflexivity | rewrite IHd, Nat.tail_mul_spec; f_equal; vm_compute (nat_of_ascii _ - 48); lia ..].
Qed.

(** [str(n)] is a non-empty run of digits whose value is [n]. *)
Lemma of_nat_digits (n : nat) :
  exists c cs,
    list_ascii_of_string (PyStr.of_nat n) = c :: cs /\
    forallb Utils.is_digit (c :: cs) = true /\
    Utils.digits_value (c :: cs) = n.
Proof.
  unfold PyStr.of_nat, NilZero.string_of_uint.
  pose proof (DecimalNat.Unsigned.of_to n) as Hn.
  destruct (Nat.to_uint n) as [|d|d|d|d|d|d|d|d|d|d] eqn:E.
  { exists "0"%char, []. simpl in Hn. subst n. repeat split. }
  all: unfold Nat.of_uint in Hn; rewrite <- uint_value in Hn;
       pose proof (uint_digits (Nat.to_uint n)) as Hd; rewrite E in Hd;
       cbn [NilEmpty.string_of_uint list_ascii_of_string] in *;
       eexists _, _; split; [reflexivity|]; split; [exact Hd | exact Hn].
Qed.

Lemma span_all (p : ascii -> bool) (l : list ascii) :
  forallb p l = true -> Utils.span p l = (l, []).
Proof.
  induction l as [|c l IH]; simpl; [reflexivity|].
  intros [Hc Hl]%andb_prop. rewrite Hc, (IH Hl). reflexivity.
Qed.

Lemma span_stop (p : ascii -> bool) (l1 : list ascii) c l2 :
  forallb p l1 = true -> p c = false ->
  Utils.span p (l1 ++ c :: l2) = (l1, c :: l2).
Proof.
  intros H1 Hc. induction l1 as [|x l1 IH]; simpl in *.
  - rewrite Hc. reflexivity.
  - apply andb_prop in H1 as [Hx Hl]. rewrite Hx, (IH Hl). reflexivity.
Qed.

Lemma letter_not_digit c : Utils.is_letter c = true -> Utils.is_digit c = false.
Proof. destruct c as [[] [] [] [] [] [] [] []]; vm_compute; congruence. Qed.

Lemma digit_not_letter c : Utils.is_digit c = true -> Utils.is_letter c = false.
Proof. destruct c as [[] [] [] [] [] [] [] []]; vm_compute; congruence. Qed.

Lemma letter_not_dollar c : Utils.is_letter c = true -> Ascii.eqb c "$" = false.
Proof. destruct c as [[] [] [] [] [] [] [] []]; vm_compute; congruence. Qed.

Lemma digit_not_dollar c : Utils.is_digit c = true -> Ascii.eqb c "$" = false.
Proof. destruct c as [[] [] [] [] [] [] [] []]; vm_compute; congruence. Qed.

Lemma letter_not_colon c : Utils.is_letter c = true -> Ascii.eqb c ":" = false.
Proof. destruct c as [[] [] [] [] [] [] [] []]; vm_compute; congruence. Qed.

Lemma digit_not_colon c : Utils.is_digit c = true -> Ascii.eqb c ":" = false.
Proof. destruct c as [[] [] [] [] [] [] [] []]; vm_compute; congruence. Qed.

(** A valid column name is one to three letters. *)
Lemma column_letters (letter : string) (c : nat) :
  Utils.column_index_from_string letter = Some c ->
  exists x xs, list_ascii_of_string letter = x :: xs /\
               forallb Utils.is_letter (x :: xs) = true.
Proof.
  unfold Utils.column_index_from_string.
  destruct (list_ascii_of_string letter) as [|x xs]; [discriminate|].
  destruct (forallb Utils.is_letter (x :: xs)) eqn:E.
  - intros _. eauto.
  - rewrite andb_false_r. discriminate.
Qed.

(** A column name followed by a row number reads back as that column and
    row. *)
Lemma parse_corner_text (letter : string) (c n : nat) :
  Utils.column_index_from_string letter = Some c ->
  Utils.parse_corner (letter +:+ PyStr.of_nat n) = Some (c, n).
Proof.
  intros Hc. destruct (column_letters letter c Hc) as (x & xs & Hl & Hletters).
  destruct (of_nat_digits n) as (d & ds & Hd & Hdigits & Hval).
  unfold Utils.parse_corner. rewrite list_ascii_of_string_app, Hl, Hd.
  pose proof Hletters as Hl'. pose proof Hdigits as Hd'.
  cbn [forallb] in Hl', Hd'.
  apply andb_prop in Hl' as [Hx _]. apply andb_prop in Hd' as [Hdd _].
  cbn [app Utils.drop_dollar]. rewrite (letter_not_dollar x Hx).
  change (x :: (xs ++ d :: ds)%list) with ((x :: xs) ++ d :: ds)%list.
  rewrite (span_stop _ _ _ _ Hletters (digit_not_letter d Hdd)).
  cbn [Utils.drop_dollar]. rewrite (digit_not_dollar d Hdd).
  rewrite (span_all _ _ Hdigits).
  rewrite <- Hl, string_of_list_ascii_of_string, Hc, Hval. reflexivity.
Qed.

Lemma split_at_app (sep : ascii) (s1 s2 : string) :
  forallb (fun c => negb (Ascii.eqb c sep)) (list_ascii_of_string s1) = true ->
  PyStr.split_at sep (s1 +:+ String sep s2) = Some (s1, s2).
Proof.
  induction s1 as [|c s1 IH].
  - intros _. change (PyStr.split_at sep (String sep s2) = Some ("", s2)).
    cbn [PyStr.split_at]. rewrite Ascii.eqb_refl. reflexivity.
  - cbn [list_ascii_of_string forallb]. intros [Hc Hs]%andb_prop.
    apply negb_true_iff in Hc. rewrite append_cons.
    cbn [PyStr.split_at]. rewrite Hc, (IH Hs). reflexivity.
Qed.

Lemma corner_has_no_colon (letter : string) (c n : nat) :
  Utils.column_index_from_string letter = Some c ->
  forallb (fun c => negb (Ascii.eqb c ":"))
          (list_ascii_of_string (letter +:+ PyStr.of_nat n)) = true.
Proof.
  intros Hc. destruct (column_letters letter c Hc) as (x & xs & Hl & Hletters).
  destruct (of_nat_digits n) as (d & ds & Hd & Hdigits & _).
  rewrite list_ascii_of_string_app, Hl, Hd, forallb_app.
  apply andb_true_intro. split; apply forallb_forall; intros y Hy.
  - rewrite forallb_forall in Hletters. by rewrite (letter_not_colon y (Hletters y Hy)).
  - rewrite forallb_forall in Hdigits. by rewrite (digit_not_colon y (Hdigits y Hy)).
Qed.

Lemma string_append_assoc (a b c : string) : a +:+ b +:+ c = (a +:+ b) +:+ c.
Proof.
  induction a as [|x a IH]; [reflexivity|].
  rewrite !append_cons, IH. reflexivity.
Qed.

Lemma range_boundaries_text (letter : string) (c a b : nat) :
  Utils.column_index_from_string letter = Some c ->
  range_boundaries (letter +:+ PyStr.of_nat a +:+ ":" +:+ letter +:+ PyStr.of_nat b)
  = inr (mkCellRange c a c b).
Proof.
  intros Hc. unfold range_boundaries.
  change (":" +:+ letter +:+ PyStr.of_nat b)
    with (String ":" (letter +:+ PyStr.of_nat b)).
  rewrite string_append_assoc.
  rewrite (split_at_app _ _ _ (corner_has_no_colon letter c a Hc)).
  rewrite !(parse_corner_text letter c) by exact Hc. reflexivity.
Qed.

(** The text [create_dropdown] builds from a column name and two rows reads
    back as the range of that column between these rows; with the rows in
    the wrong order it is refused. *)
Lemma CellRange_of_range_text (letter : string) (c a b : nat) :
  Utils.column_index_from_string letter = Some c ->
  CellRange_of_string
    (letter +:+ PyStr.of_nat a +:+ ":" +:+ letter +:+ PyStr.of_nat b)
  = if a <=? b then inr (mkCellRange c a c b)
    else inl (Exn ValueError
                ((letter +:+ PyStr.of_nat a +:+ ":" +:+ letter +:+ PyStr.of_nat b)
                 +:+ " is not a valid range")).
Proof.
  intros Hc. unfold CellRange_of_string.
  rewrite (range_boundaries_text letter c a b Hc).
  cbn [min_col max_col min_row max_row]. rewrite Nat.leb_refl. reflexivity.
Qed.

(* ------------------------------------------------------------------ *)
(** ** [create_dropdown] on any sheet, column and rows *)
(* ------------------------------------------------------------------ *)

Lemma alter_last {A} (f : A -> A) (l : list A) (x : A) :
  alter f (length l) (l ++ [x])%list = (l ++ [f x])%list.
Proof. induction l as [|y l IH]; simpl; [reflexivity | f_equal; exact IH]. Qed.

Lemma create_dropdown_run sheet letter c a b source env st :
  Utils.column_index_from_string letter = Some c ->
  create_dropdown sheet letter a b source env st =
    if a <=? b
    then (inr tt, dropdown_state sheet source [mkCellRange c a c b] st)
    else (inl (Exn ValueError
                 ((letter +:+ PyStr.of_nat a +:+ ":" +:+ letter +:+ PyStr.of_nat b)
                  +:+ " is not a valid range")),
          dropdown_state sheet source [] st).
Proof.
  intros Hc. unfold create_dropdown, Openpyxl.add.
  rewrite (CellRange_of_range_text letter c a b Hc).
  destruct st as [wss dvs wbs out fs].
  destruct (a <=? b);
    unfold Openpyxl.new_DataValidation, Openpyxl.set_error, Openpyxl.set_errorTitle,
      Openpyxl.add_data_validation, alloc_dv, update_dv, update_ws, modify, lift,
      get_state, put_state, raise, mbind, M_bind, bind, mret, M_ret, ret,
      dropdown_state, set_validations, set_worksheets;
    cbn [validations worksheets workbooks stdout files];
    rewrite !alter_last; reflexivity.
Qed.

Lemma omap_allocated {A} (l : list A) (x : A) (refs : list nat) :
  Forall (fun r => r < length l) refs ->
  omap (fun r => (l ++ [x])%list !! r) (refs ++ [length l])%list
  = (omap (fun r => l !! r) refs ++ [x])%list.
Proof.
  induction 1 as [|r refs Hr _ IH]; cbn [app omap list_omap].
  - rewrite lookup_app_r, Nat.sub_diag by reflexivity. reflexivity.
  - change (list_omap ?f ?l) with (omap f l). rewrite IH.
    rewrite lookup_app_l by exact Hr.
    destruct (l !! r); reflexivity.
Qed.

Lemma dropdown_state_sheet sheet source ranges st w :
  worksheets st !! sheet = Some w ->
  validations_allocated st w ->
  exists w',
    worksheets (dropdown_state sheet source ranges st) !! sheet = Some w' /\
    Openpyxl.snapshot_sheet (dropdown_state sheet source ranges st) w' =
      mkSavedSheet (title w) (cells w) (column_dimensions w)
        (s_validations (Openpyxl.snapshot_sheet st w)
         ++ [list_validation source ranges])%list.
Proof.
  intros Hw Halloc. eexists. split.
  - unfold dropdown_state. cbn [worksheets].
    rewrite list_lookup_alter_eq, Hw. reflexivity.
  - unfold Openpyxl.snapshot_sheet, dropdown_state, with_data_validations.
    cbn [title cells column_dimensions data_validations validations s_validations].
    rewrite (omap_allocated _ _ _ Halloc). reflexivity.
Qed.

Lemma constrained_app t cs cd vs1 vs2 row col :
  constrained (mkSavedSheet t cs cd (vs1 ++ vs2)%list) row col =
  constrained (mkSavedSheet t cs cd vs1) row col
  || constrained (mkSavedSheet t cs cd vs2) row col.
Proof. unfold constrained. cbn [s_validations]. apply existsb_app. Qed.

(** The text built from a column name and two ordered rows of a worksheet
    (rows run from 1 to 1048576) is read back by [dv.add] as the range of
    exactly that column and these rows. *)
Theorem range_text_round_trip (letter : string) (c a b : nat) :
  Utils.column_index_from_string letter = Some c ->
  1 <= a -> a <= b -> b <= 1048576 ->
  CellRange_of_string
    (letter +:+ PyStr.of_nat a +:+ ":" +:+ letter +:+ PyStr.of_nat b)
  = inr (mkCellRange c a c b).
Proof.
  intros Hc _ Hab _. rewrite (CellRange_of_range_text letter c a b Hc).
  apply Nat.leb_le in Hab. rewrite Hab. reflexivity.
Qed.

Lemma range_text_round_trip_witness :
  Utils.column_index_from_string "AB" = Some 28 /\ 7 <= 12 /\
  CellRange_of_string ("AB" +:+ PyStr.of_nat 7 +:+ ":" +:+ "AB" +:+ PyStr.of_nat 12)
  = inr (mkCellRange 28 7 28 12).
Proof.
  split; [reflexivity|]. split; [lia|].
  apply (range_text_round_trip "AB" 28 7 12);
    [reflexivity | lia | lia | apply Nat.leb_le; vm_compute; reflexivity].
Defined.

(** [create_dropdown] on a sheet of the workbook, with a valid column name
    and ordered rows of a worksheet (1 to 1048576): it succeeds; the sheet, as saved, keeps its title,
    cells, widths and validations and gains one list validation with the
    fixed message, whose formula is "Choices." followed by the source text
    and whose range is the given rows of the given column, although the
    range is added only after the validation was handed to the sheet.  A
    cell is constrained afterwards when it was before or lies in that
    range.  Other sheets, the workbook list, the output and the disk are
    untouched. *)
Theorem create_dropdown_adds_validation sheet w letter c a b source env st :
  worksheets st !! sheet = Some w ->
  validations_allocated st w ->
  Utils.column_index_from_string letter = Some c ->
  1 <= a -> a <= b -> b <= 1048576 ->
  exists st' w',
    create_dropdown sheet letter a b source env st = (inr tt, st') /\
    worksheets st' !! sheet = Some w' /\
    Openpyxl.snapshot_sheet st' w' =
      mkSavedSheet (title w) (cells w) (column_dimensions w)
        (s_validations (Openpyxl.snapshot_sheet st w)
         ++ [list_validation source [mkCellRange c a c b]])%list /\
    (forall row col,
       constrained (Openpyxl.snapshot_sheet st' w') row col =
       constrained (Openpyxl.snapshot_sheet st w) row col
       || ((col =? c) && (a <=? row) && (row <=? b))) /\
    (forall other, other <> sheet -> worksheets st' !! other = worksheets st !! other) /\
    workbooks st' = workbooks st /\ stdout st' = stdout st /\ files st' = files st.
Proof.
  intros Hw Halloc Hc _ Hab _.
  destruct (dropdown_state_sheet sheet source [mkCellRange c a c b] st w Hw Halloc)
    as (w' & Hw' & Hsnap).
  exists (dropdown_state sheet source [mkCellRange c a c b] st), w'.
  split.
  { rewrite (create_dropdown_run sheet letter c a b source env st Hc).
    apply Nat.leb_le in Hab. rewrite Hab. reflexivity. }
  split; [exact Hw'|]. split; [exact Hsnap|]. split; [|split; [|repeat split]].
  - intros row col. rewrite Hsnap, constrained_app. f_equal.
    unfold constrained, list_validation, in_range.
    cbn [s_validations existsb sqref min_row max_row min_col max_col].
    rewrite !orb_false_r.
    destruct (a <=? row), (row <=? b), (c <=? col) eqn:E1, (col <=? c) eqn:E2,
      (col =? c) eqn:E3; try reflexivity; exfalso;
      rewrite ?Nat.leb_le, ?Nat.leb_gt, ?Nat.eqb_eq, ?Nat.eqb_neq in *; lia.
  - intros other Hother. unfold dropdown_state. cbn [worksheets].
    apply list_lookup_alter_ne. congruence.
Qed.

Lemma create_dropdown_adds_validation_witness :
  exists st' w',
    create_dropdown 0 "N" 2 1000 "$B$2:$B$4" complete_env one_sheet_state = (inr tt, st') /\
    worksheets st' !! 0 = Some w' /\
    s_validations (Openpyxl.snapshot_sheet st' w') =
      [list_validation "$B$2:$B$4" [mkCellRange 14 2 14 1000]].
Proof.
  destruct (create_dropdown_adds_validation 0 (new_worksheet "Shipments") "N" 14 2 1000
              "$B$2:$B$4" complete_env one_sheet_state)
    as (st' & w' & Hrun & Hw' & Hsnap & _).
  - reflexivity.
  - constructor.
  - reflexivity.
  - lia.
  - apply Nat.leb_le. vm_compute. reflexivity.
  - apply Nat.leb_le. vm_compute. reflexivity.
  - exists st', w'. rewrite Hsnap. repeat split; assumption.
Defined.

(** [create_dropdown] with two rows of a worksheet (1 to 1048576) in the
    wrong order: the range is refused with a [ValueError], but only after the validation was handed
    to the sheet, which therefore keeps a list validation that applies to
    no cell. *)
Theorem create_dropdown_reversed_rows sheet w letter c a b source env st :
  worksheets st !! sheet = Some w ->
  validations_allocated st w ->
  Utils.column_index_from_string letter = Some c ->
  1 <= b -> b < a -> a <= 1048576 ->
  exists e st' w',
    create_dropdown sheet letter a b source env st = (inl e, st') /\
    exn_cls e = ValueError /\
    worksheets st' !! sheet = Some w' /\
    s_validations (Openpyxl.snapshot_sheet st' w') =
      (s_validations (Openpyxl.snapshot_sheet st w) ++ [list_validation source []])%list /\
    (forall row col,
       constrained (Openpyxl.snapshot_sheet st' w') row col =
       constrained (Openpyxl.snapshot_sheet st w) row col).
Proof.
  intros Hw Halloc Hc _ Hab _.
  destruct (dropdown_state_sheet sheet source [] st w Hw Halloc) as (w' & Hw' & Hsnap).
  eexists _, (dropdown_state sheet source [] st), w'.
  split.
  { rewrite (create_dropdown_run sheet letter c a b source env st Hc).
    apply Nat.leb_gt in Hab. rewrite Hab. reflexivity. }
  split; [reflexivity|]. split; [exact Hw'|]. split.
  - rewrite Hsnap. reflexivity.
  - intros row col. rewrite Hsnap, constrained_app.
    unfold constrained at 2. cbn [s_validations existsb list_validation sqref].
    apply orb_false_r.
Qed.

Lemma create_dropdown_reversed_rows_witness :
  exists e st' w',
    create_dropdown 0 "A" 1000 2 "$A$2:$A$4" complete_env one_sheet_state = (inl e, st') /\
    exn_cls e = ValueError /\
    worksheets st' !! 0 = Some w' /\
    s_validations (Openpyxl.snapshot_sheet st' w') = [list_validation "$A$2:$A$4" []].
Proof.
  destruct (create_dropdown_reversed_rows 0 (new_worksheet "Shipments") "A" 1 1000 2
              "$A$2:$A$4" complete_env one_sheet_state)
    as (e & st' & w' & Hrun & He & Hw' & Hsnap & _).
  - reflexivity.
  - constructor.
  - reflexivity.
  - lia.
  - apply Nat.ltb_lt. vm_compute. reflexivity.
  - apply Nat.leb_le. vm_compute. reflexivity.
  - exists e, st', w'. rewrite Hsnap. repeat split; assumption.
Defined.

(* ------------------------------------------------------------------ *)
(** ** How a run ends, for every environment *)
(* ------------------------------------------------------------------ *)

(** An import that fails ends the run with the exception it raises,
    uncaught: the one of the first failing module in import order (pandas
    first, although nothing uses it), whatever its class and whichever
    module its message names.  Nothing is printed, the install hint
    included, and the disk is left as it was. *)
Theorem failing_import_ends_run_uncaught
    (env : Env) (fs : gmap string SavedWorkbook) (m : string) (e : exn) :
  first_missing env = Some m ->
  import_failure env m = Some e ->
  run env fs = (UncaughtException e, [], fs).
Proof.
  intros Hm He. rewrite run_cases, (first_import_error_missing env m e Hm He).
  reflexivity.
Qed.

Lemma failing_import_ends_run_uncaught_witness :
  first_missing env_broken_pandas = Some "pandas" /\
  import_failure env_broken_pandas "pandas" = Some (module_not_found "numpy") /\
  run env_broken_pandas ∅ = (UncaughtException (module_not_found "numpy"), [], ∅).
Proof.
  split; [reflexivity|]. split; [reflexivity|].
  apply (failing_import_ends_run_uncaught env_broken_pandas ∅ "pandas"
           (module_not_found "numpy")); reflexivity.
Defined.





(** An exception raised by the write that does not derive from [Exception]
    (a keyboard interrupt) passes both handlers: the run ends with it
    uncaught and with nothing printed.  The disk is as a failed write
    leaves it: an interrupt after the archive was opened leaves no workbook
    under [filename]. *)
Theorem non_exception_escapes
    (env : Env) (fs : gmap string SavedWorkbook) (e : exn) :
  first_missing env = None ->
  save_failure env = Some e ->
  is_Exception e = false ->
  run env fs = (UncaughtException e, [],
                if archive_opened env then delete filename fs else fs).
Proof.
  intros Hm Hs He. rewrite run_cases, (first_import_error_ok env Hm), Hs, He.
  destruct e as [[] msg]; try discriminate He; reflexivity.
Qed.

Lemma non_exception_escapes_witness :
  run env_interrupted {[filename := mkSavedWorkbook [] 0]} =
    (UncaughtException (Exn KeyboardInterrupt ""), [],
     delete filename {[filename := mkSavedWorkbook [] 0]}).
Proof.
  apply (non_exception_escapes env_interrupted {[filename := mkSavedWorkbook [] 0]}
           (Exn KeyboardInterrupt "")); reflexivity.
Defined.


(** Whatever happens, no path other than [filename] is created, changed or
    removed. *)
Theorem other_files_untouched
    (env : Env) (fs : gmap string SavedWorkbook) (path : string) :
  path <> filename ->
  (run env fs).2 !! path = fs !! path.
Proof.
  intros Hp. rewrite run_cases.
  destruct (first_import_error env) as [e|]; [reflexivity|].
  destruct (save_failure env) as [e|].
  - assert (H : after_failed_save env fs !! path = fs !! path).
    { unfold after_failed_save. destruct (archive_opened env); [|reflexivity].
      apply lookup_delete_ne. congruence. }
    destruct (is_ImportError e); [|destruct (is_Exception e)]; exact H.
  - cbn [snd]. apply lookup_insert_ne. congruence.
Qed.

Lemma other_files_untouched_witness :
  "notes.xlsx" <> filename /\
  (run complete_env {["notes.xlsx" := mkSavedWorkbook [] 0]}).2 !! "notes.xlsx"
  = Some (mkSavedWorkbook [] 0).
Proof.
  assert (H : "notes.xlsx" <> filename) by discriminate.
  split; [exact H|].
  rewrite (other_files_untouched complete_env _ "notes.xlsx" H).
  apply lookup_singleton_eq.
Defined.

(* ------------------------------------------------------------------ *)
(** ** Changes confined to one sheet *)
(* ------------------------------------------------------------------ *)

(** The function is its named loops, in order. *)
Lemma create_bulk_shipments_template_loops :
  create_bulk_shipments_template =
    (wb ← Openpyxl.new_Workbook;
     a ← Openpyxl.active wb;
     Openpyxl.remove wb a;;
     shipments_sheet ← Openpyxl.create_sheet wb "Shipments";
     choices_sheet ← Openpyxl.create_sheet wb "Choices";
     write_headers shipments_sheet headers;;
     set_widths shipments_sheet column_widths;;
     add_choices choices_sheet choices_data 1;;
     create_dropdown shipments_sheet "A" 2 1000 "$A$2:$A$4";;
     create_dropdown shipments_sheet "N" 2 1000 "$B$2:$B$4";;
     create_dropdown shipments_sheet "H" 2 1000 "$C$2:$C$11";;
     create_dropdown shipments_sheet "L" 2 1000 "$C$2:$C$11";;
     create_dropdown shipments_sheet "D" 2 1000 "$G$2:$G$26";;
     create_dropdown shipments_sheet "E" 2 1000 "$H$2:$H$15";;
     create_dropdown shipments_sheet "P" 2 1000 "$I$2:$I$3";;
     write_samples shipments_sheet sample_data;;
     instructions_sheet ← Openpyxl.create_sheet wb "Instructions";
     Openpyxl.set_column_width instructions_sheet "A" 80;;
     write_instructions instructions_sheet instructions;;
     Openpyxl.set_active wb shipments_sheet;;
     Openpyxl.save wb filename;;
     print ("✅ Template created successfully: " +:+ filename);;
     print "📋 The template includes:";;
     print "   • Shipments sheet with dropdown menus";;
     print "   • Choices sheet with all dropdown options";;
     print "   • Instructions sheet with detailed guidance";;
     print "   • Sample data rows for reference").
Proof.
  unfold create_bulk_shipments_template, write_headers, set_widths, write_samples,
    write_instructions.
  cbv zeta. reflexivity.
Qed.

Lemma upd_upd sheet g1 g2 st : upd sheet g2 (upd sheet g1 st) = upd sheet (g2 ∘ g1) st.
Proof.
  destruct st as [wss dvs wbs out fs]. unfold upd, set_worksheets.
  cbn [worksheets validations workbooks stdout files].
  by rewrite list_alter_alter_eq.
Qed.

Lemma upd_same sheet g st : (forall w, g w = w) -> upd sheet g st = st.
Proof.
  intros Hg. destruct st as [wss dvs wbs out fs]. unfold upd, set_worksheets.
  cbn [worksheets validations workbooks stdout files].
  by rewrite list_alter_id.
Qed.

Lemma sheet_writes_ret {A} (a : A) sheet :
  sheet_writes (mret a) sheet a (fun _ old => old) (fun _ old => old).
Proof.
  exists (fun w => w). split.
  - intros env st. rewrite upd_same by reflexivity. reflexivity.
  - intros w. repeat split.
Qed.

Lemma sheet_writes_bind {A B} (m : M A) (k : A -> M B) sheet a b selc1 seld1 selc2 seld2 :
  sheet_writes m sheet a selc1 seld1 ->
  sheet_writes (k a) sheet b selc2 seld2 ->
  sheet_writes (m ≫= k) sheet b
    (fun key old => selc2 key (selc1 key old))
    (fun l old => seld2 l (seld1 l old)).
Proof.
  intros (g1 & Hrun1 & Heff1) (g2 & Hrun2 & Heff2).
  exists (g2 ∘ g1). split.
  - intros env st. rewrite (bind_eq _ _ _ _ _ _ (Hrun1 env st)), Hrun2, upd_upd.
    reflexivity.
  - intros w. destruct (Heff1 w) as (? & ? & ? & Hc1 & Hd1).
    destruct (Heff2 (g1 w)) as (? & ? & ? & Hc2 & Hd2).
    unfold compose.
    split; [congruence|]. split; [congruence|]. split; [congruence|].
    split; intros x; [rewrite Hc2, Hc1 | rewrite Hd2, Hd1]; reflexivity.
Qed.

Lemma sheet_writes_ext {A} (m : M A) sheet a selc seld selc' seld' :
  sheet_writes m sheet a selc seld ->
  (forall key old, selc key old = selc' key old) ->
  (forall l old, seld l old = seld' l old) ->
  sheet_writes m sheet a selc' seld'.
Proof.
  intros (g & Hrun & Heff) Hc Hd. exists g. split; [exact Hrun|].
  intros w. destruct (Heff w) as (? & ? & ? & Hc1 & Hd1).
  split; [assumption|]. split; [assumption|]. split; [assumption|].
  split; intros x; [rewrite Hc1; apply Hc | rewrite Hd1; apply Hd].
Qed.

Lemma take_characters_all (s : string) :
  forall n, Openpyxl.take_characters n s = s <-> (character_count s <= n)%N.
Proof.
  induction s as [|c s IH]; intros n; cbn [Openpyxl.take_characters character_count].
  - split; [lia | reflexivity].
  - destruct (Openpyxl.starts_character c).
    + destruct (N.eqb_spec n 0) as [->|Hn].
      * split; [discriminate | lia].
      * split.
        -- intros [= H]. apply IH in H. lia.
        -- intros H. f_equal. apply IH. lia.
    + split.
      * intros [= H]. apply IH. exact H.
      * intros H. f_equal. apply IH. exact H.
Qed.

(** What [storable] asks of a text. *)
Lemma storable_iff (v : string) :
  storable v <->
  (character_count v <= 32767)%N /\
  existsb Openpyxl.illegal_character (list_ascii_of_string v) = false.
Proof.
  unfold storable, Openpyxl.check_string. cbv zeta. split.
  - destruct (existsb _ _) eqn:E; [discriminate|]. intros [= H].
    rewrite H in E. split; [apply take_characters_all; exact H | exact E].
  - intros [Hlen Hok]. apply take_characters_all in Hlen. rewrite Hlen, Hok.
    reflexivity.
Qed.

(** A row of the grid, 1 to 1048576, passes the check of [_get_cell]. *)
Lemma grid_row (row : nat) : row <= 1048576 -> (N.of_nat row < 1048577)%N.
Proof.
  intros H.
  assert (E : N.of_nat 1048576 = 1048576%N) by (vm_compute; reflexivity).
  lia.
Qed.

(** A value computed outside the state. *)
Lemma sheet_writes_lift {A} (r : exn + A) (a : A) sheet :
  r = inr a -> sheet_writes (lift r) sheet a (fun _ old => old) (fun _ old => old).
Proof. intros ->. apply sheet_writes_ret. Qed.

(** Writing a storable text into a cell at a position of the grid. *)
Lemma sheet_writes_cell sheet row col v :
  1 <= row -> (N.of_nat row < 1048577)%N -> 1 <= col -> storable v ->
  sheet_writes (Openpyxl.cell sheet row col (Some v)) sheet (mkCellRef sheet row col)
    (fun key old => if decide (key = (row, col)) then Some (value_cell v old) else old)
    (fun _ old => old).
Proof.
  intros Hr Hmax Hc Hv.
  exists (with_cells (alter (set_value v) (row, col)) ∘
          with_cells (fun cs =>
            <[(row, col) := default empty_cell (cs !! (row, col))]> cs)).
  split.
  - intros env st. rewrite <- upd_upd.
    unfold Openpyxl.cell, Openpyxl.get_cell, Openpyxl.set_cell_value.
    destruct (row <? 1) eqn:E1; [apply Nat.ltb_lt in E1; lia|].
    destruct (col <? 1) eqn:E2; [apply Nat.ltb_lt in E2; lia|].
    rewrite (proj2 (Nat.ltb_lt 0 row)) by lia.
    rewrite (proj2 (N.ltb_lt _ _) Hmax).
    unfold storable in Hv. rewrite Hv. reflexivity.
  - intros w. unfold compose, with_cells.
    cbn [title sheet_state data_validations cells column_dimensions].
    repeat split. intros key.
    destruct (decide (key = (row, col))) as [->|Hne].
    + rewrite lookup_alter_eq, lookup_insert_eq. reflexivity.
    + rewrite lookup_alter_ne, lookup_insert_ne by congruence. reflexivity.
Qed.

(** Changing an attribute of a cell. *)
Lemma sheet_writes_update_cell sheet row col (f : Cell -> Cell) :
  sheet_writes (Openpyxl.update_cell (mkCellRef sheet row col) f) sheet tt
    (fun key old => if decide (key = (row, col)) then f <$> old else old)
    (fun _ old => old).
Proof.
  exists (with_cells (alter f (row, col))). split; [reflexivity|].
  intros w. unfold with_cells. cbn [title sheet_state data_validations cells column_dimensions].
  repeat split. intros key. rewrite lookup_alter.
  destruct (decide ((row, col) = key)) as [<-|Hne].
  - rewrite decide_True by reflexivity. reflexivity.
  - rewrite decide_False by congruence. reflexivity.
Qed.

Lemma alter_is_insert {A} (g : A -> A) (i : nat) (l : list A) (x : A) :
  l !! i = Some x -> alter g i l = <[i := g x]> l.
Proof.
  intros Hx. rewrite list_insert_alter.
  apply list_alter_ext; [|reflexivity]. intros y Hy. congruence.
Qed.

(** What [sheet_writes] means for a sheet of the state. *)
Lemma sheet_writes_elim {A} (m : M A) sheet a selc seld env st w :
  sheet_writes m sheet a selc seld ->
  worksheets st !! sheet = Some w ->
  exists w',
    m env st = (inr a, set_worksheets (<[sheet := w']> (worksheets st)) st) /\
    title w' = title w /\
    sheet_state w' = sheet_state w /\
    data_validations w' = data_validations w /\
    (forall key, cells w' !! key = selc key (cells w !! key)) /\
    (forall l, column_dimensions w' !! l = seld l (column_dimensions w !! l)).
Proof.
  intros (g & Hrun & Heff) Hw. exists (g w). split.
  - rewrite Hrun. unfold upd. by rewrite (alter_is_insert g sheet _ w Hw).
  - apply Heff.
Qed.

(** A loop over [enumerate start l] whose pass for index [i] touches only
    the cells that [owner] gives to [i], and succeeds on the elements that
    are [ok] at their index: afterwards a cell holds what the pass of its
    owner wrote, if the owner is an index of the list, and what it held
    before otherwise. *)
Lemma for_each_owned {A} (body : nat * A -> M unit) sheet
    (owner : nat * nat -> option nat)
    (w : nat -> A -> nat * nat -> option Cell -> option Cell) (lo : nat)
    (ok : nat -> A -> Prop) :
  (forall i x, lo <= i -> ok i x ->
     sheet_writes (body (i, x)) sheet tt
       (fun key old => if decide (owner key = Some i) then w i x key old else old)
       (fun _ old => old)) ->
  forall l start, lo <= start ->
    (forall k x, l !! k = Some x -> ok (start + k) x) ->
    sheet_writes (for_each (enumerate start l) body) sheet tt
      (fun key old =>
         match owner key with
         | Some i =>
             if start <=? i
             then match l !! (i - start) with
                  | Some x => w i x key old
                  | None => old
                  end
             else old
         | None => old
         end)
      (fun _ old => old).
Proof.
  intros Hbody l. induction l as [|x l IH]; intros start Hstart Hok;
    cbn [enumerate for_each].
  - apply (sheet_writes_ext _ _ _ _ _ _ _ (sheet_writes_ret tt sheet)); [|reflexivity].
    intros key old. destruct (owner key) as [i|]; [|reflexivity].
    destruct (start <=? i); [|reflexivity]. by rewrite lookup_nil.
  - assert (Hx : ok start x).
    { specialize (Hok 0 x eq_refl). rewrite Nat.add_0_r in Hok. exact Hok. }
    assert (Hl : forall k y, l !! k = Some y -> ok (S start + k) y).
    { intros k y Hk. specialize (Hok (S k) y Hk).
      replace (S start + k) with (start + S k) by lia. exact Hok. }
    apply (sheet_writes_ext _ _ _ _ _ _ _
             (sheet_writes_bind _ _ _ _ _ _ _ _ _
                (Hbody start x Hstart Hx) (IH (S start) ltac:(lia) Hl)));
      [|reflexivity].
    intros key old. destruct (owner key) as [i|].
    + destruct (decide (Some i = Some start)) as [[= ->]|Hne].
      * rewrite (proj2 (Nat.leb_gt (S start) start)) by lia.
        rewrite Nat.leb_refl, Nat.sub_diag. reflexivity.
      * assert (i <> start) by congruence.
        destruct (Nat.leb_spec (S start) i), (Nat.leb_spec start i); try lia;
          [|reflexivity].
        replace (i - start) with (S (i - S start)) by lia. reflexivity.
    + rewrite decide_False by discriminate. reflexivity.
Qed.

(* ------------------------------------------------------------------ *)
(** ** The header loop *)
(* ------------------------------------------------------------------ *)

Lemma header_pass sheet col header :
  1 <= col -> storable header ->
  sheet_writes
    (cell ← Openpyxl.cell sheet 1 col (Some header);
     ft ← lift (Openpyxl.new_Font true None (Some "FFFFFF"));
     Openpyxl.set_cell_font cell ft;;
     fl ← lift (Openpyxl.new_PatternFill "366092" "366092" "solid");
     Openpyxl.set_cell_fill cell fl;;
     Openpyxl.set_cell_alignment cell (mkAlignment (Some "center") (Some "center") None))
    sheet tt
    (fun key old =>
       if decide ((if key.1 =? 1 then Some key.2 else None) = Some col)
       then Some (header_cell header old) else old)
    (fun _ old => old).
Proof.
  intros Hcol Hv.
  eapply sheet_writes_ext.
  - eapply sheet_writes_bind;
      [apply (sheet_writes_cell sheet 1 col header); [lia | lia | lia | exact Hv]|].
    eapply sheet_writes_bind; [apply sheet_writes_lift; vm_compute; reflexivity|].
    eapply sheet_writes_bind; [apply sheet_writes_update_cell|].
    eapply sheet_writes_bind; [apply sheet_writes_lift; vm_compute; reflexivity|].
    eapply sheet_writes_bind; [apply sheet_writes_update_cell|].
    apply sheet_writes_update_cell.
  - intros [r c] old. cbn [fst snd].
    destruct (decide ((r, c) = (1, col))) as [[= -> ->]|Hne].
    + rewrite decide_True by reflexivity. reflexivity.
    + rewrite decide_False; [reflexivity|].
      destruct (Nat.eqb_spec r 1); [intros [= ->]; congruence | discriminate].
  - reflexivity.
Qed.

(** The header loop over any list of storable headers, on a sheet of the
    workbook: it succeeds and changes only row 1 of that sheet.  The cell
    in column i, for i from 1 to the number of headers, holds the i-th
    header, bold white (aRGB 00FFFFFF) on the solid blue fill (00366092)
    and centred; what else the cell carried stays.  Every other cell, the
    widths, the validations and the rest of the state are as before. *)
Theorem write_headers_row sheet w (hs : list string) env st :
  worksheets st !! sheet = Some w ->
  Forall storable hs ->
  exists w',
    write_headers sheet hs env st
      = (inr tt, set_worksheets (<[sheet := w']> (worksheets st)) st) /\
    title w' = title w /\
    data_validations w' = data_validations w /\
    column_dimensions w' = column_dimensions w /\
    forall row col,
      cells w' !! (row, col) =
        match (if (row =? 1) && (1 <=? col) then hs !! (col - 1) else None) with
        | Some h => Some (header_cell h (cells w !! (row, col)))
        | None => cells w !! (row, col)
        end.
Proof.
  intros Hw Hhs.
  assert (Hloop := for_each_owned
                     (fun '(col, header) =>
                        cell ← Openpyxl.cell sheet 1 col (Some header);
                        ft ← lift (Openpyxl.new_Font true None (Some "FFFFFF"));
                        Openpyxl.set_cell_font cell ft;;
                        fl ← lift (Openpyxl.new_PatternFill "366092" "366092" "solid");
                        Openpyxl.set_cell_fill cell fl;;
                        Openpyxl.set_cell_alignment cell
                          (mkAlignment (Some "center") (Some "center") None))
                     sheet (fun key => if key.1 =? 1 then Some key.2 else None)
                     (fun _ h _ old => Some (header_cell h old)) 1
                     (fun _ h => storable h)
                     (fun i x Hi Hx => header_pass sheet i x Hi Hx) hs 1 (le_n 1)
                     (fun k x Hk => Forall_lookup_1 _ _ _ _ Hhs Hk)).
  destruct (sheet_writes_elim _ _ _ _ _ env st w Hloop Hw)
    as (w' & Hrun & Ht & _ & Hv & Hc & Hd).
  exists w'. split; [exact Hrun|]. split; [exact Ht|]. split; [exact Hv|].
  split; [apply map_eq; intros l; exact (Hd l)|].
  intros row col. rewrite Hc. cbn beta. cbn [fst snd].
  destruct (row =? 1); [|reflexivity]. cbn [andb].
  destruct (1 <=? col); reflexivity.
Qed.

Lemma write_headers_row_witness :
  Forall storable ["Client Email"; "Notes"] /\
  exists w',
    write_headers 0 ["Client Email"; "Notes"] complete_env one_sheet_state
      = (inr tt, set_worksheets [w'] one_sheet_state) /\
    cells w' !! (1, 2) = Some (header_cell "Notes" None) /\
    cells w' !! (2, 1) = None.
Proof.
  assert (Hs : Forall storable ["Client Email"; "Notes"])
    by (repeat apply Forall_cons_2; try apply Forall_nil_2; reflexivity).
  split; [exact Hs|].
  destruct (write_headers_row 0 (new_worksheet "Shipments") ["Client Email"; "Notes"]
              complete_env one_sheet_state eq_refl Hs)
    as (w' & Hrun & _ & _ & _ & Hc).
  exists w'. split; [exact Hrun|]. split; [exact (Hc 1 2) | exact (Hc 2 1)].
Defined.

(* ------------------------------------------------------------------ *)
(** ** The sample loop *)
(* ------------------------------------------------------------------ *)

Lemma sample_row_pass sheet row (row_data : list string) :
  1 <= row -> (N.of_nat row < 1048577)%N -> Forall storable row_data ->
  sheet_writes
    (for_each (enumerate 1 row_data) (fun '(col_idx, value) =>
       Openpyxl.cell sheet row col_idx (Some value);; mret tt))
    sheet tt
    (fun key old =>
       if decide (Some key.1 = Some row)
       then (if 1 <=? key.2
             then match row_data !! (key.2 - 1) with
                  | Some v => Some (value_cell v old)
                  | None => old
                  end
             else old)
       else old)
    (fun _ old => old).
Proof.
  intros Hrow Hmax Hvs.
  eapply sheet_writes_ext;
    [ apply (for_each_owned
               (fun '(col_idx, value) =>
                  Openpyxl.cell sheet row col_idx (Some value);; mret tt)
               sheet (fun key => if key.1 =? row then Some key.2 else None)
               (fun _ v _ old => Some (value_cell v old)) 1
               (fun _ v => storable v));
      [ | exact (le_n 1) | exact (fun k x Hk => Forall_lookup_1 _ _ _ _ Hvs Hk) ]
    | | reflexivity ].
  - intros col v Hcol Hv. cbn beta iota.
    eapply sheet_writes_ext;
      [ eapply sheet_writes_bind;
        [ apply (sheet_writes_cell sheet row col v); [lia | exact Hmax | lia | exact Hv]
        | apply sheet_writes_ret ]
      | | reflexivity ].
    intros [r c] old. cbn [fst snd].
    destruct (decide ((r, c) = (row, col))) as [[= -> ->]|Hne].
    + rewrite Nat.eqb_refl, decide_True by reflexivity. reflexivity.
    + rewrite decide_False; [reflexivity|].
      destruct (Nat.eqb_spec r row); [intros [= ->]; congruence | discriminate].
  - intros [r c] old. cbn [fst snd].
    destruct (Nat.eqb_spec r row) as [->|Hne].
    + rewrite decide_True by reflexivity. reflexivity.
    + rewrite decide_False by congruence. reflexivity.
Qed.

(** The sample loop over any list of records of storable texts that fits
    the grid below the header row, on a sheet of the workbook: it succeeds;
    record i (from 0) goes to row 2 + i, its j-th value (from 0) to column
    1 + j, records of different lengths included; a cell written keeps the
    style it had, and every other cell, the widths, the validations and the
    rest of the state are as before.  Row 1 is never touched. *)
Theorem write_samples_cells sheet w (data : list (list string)) env st :
  worksheets st !! sheet = Some w ->
  length data < 1048576 ->
  Forall (Forall storable) data ->
  exists w',
    write_samples sheet data env st
      = (inr tt, set_worksheets (<[sheet := w']> (worksheets st)) st) /\
    title w' = title w /\
    data_validations w' = data_validations w /\
    column_dimensions w' = column_dimensions w /\
    (forall row col,
       cells w' !! (row, col) =
         match (if (2 <=? row) && (1 <=? col)
                then data !! (row - 2) ≫= fun record => record !! (col - 1)
                else None) with
         | Some v => Some (value_cell v (cells w !! (row, col)))
         | None => cells w !! (row, col)
         end) /\
    (forall col, cells w' !! (1, col) = cells w !! (1, col)).
Proof.
  intros Hw Hlen Hdata.
  assert (Hok : forall k x, data !! k = Some x ->
                  (N.of_nat (2 + k) < 1048577)%N /\ Forall storable x).
  { intros k x Hk. split; [|exact (Forall_lookup_1 _ _ _ _ Hdata Hk)].
    apply grid_row. apply lookup_lt_Some in Hk. lia. }
  assert (Hloop := for_each_owned
                     (fun '(row_idx, row_data) =>
                        for_each (enumerate 1 row_data) (fun '(col_idx, value) =>
                          Openpyxl.cell sheet row_idx col_idx (Some value);; mret tt))
                     sheet (fun key => Some key.1)
                     (fun _ row_data key old =>
                        if 1 <=? key.2
                        then match row_data !! (key.2 - 1) with
                             | Some v => Some (value_cell v old)
                             | None => old
                             end
                        else old) 1
                     (fun i x => (N.of_nat i < 1048577)%N /\ Forall storable x)
                     (fun i x Hi Hx => sample_row_pass sheet i x Hi (proj1 Hx) (proj2 Hx))
                     data 2 ltac:(lia) Hok).
  destruct (sheet_writes_elim _ _ _ _ _ env st w Hloop Hw)
    as (w' & Hrun & Ht & _ & Hv & Hc & Hd).
  exists w'. split; [exact Hrun|]. split; [exact Ht|]. split; [exact Hv|].
  split; [apply map_eq; intros l; exact (Hd l)|].
  assert (Hcells : forall row col,
            cells w' !! (row, col) =
              match (if (2 <=? row) && (1 <=? col)
                     then data !! (row - 2) ≫= fun record => record !! (col - 1)
                     else None) with
              | Some v => Some (value_cell v (cells w !! (row, col)))
              | None => cells w !! (row, col)
              end).
  { intros row col. rewrite Hc. cbn beta. cbn [fst snd].
    destruct (2 <=? row); [|reflexivity]. cbn [andb].
    destruct (data !! (row - 2)) as [record|]; cbn [mbind option_bind];
      [|destruct (1 <=? col); reflexivity].
    destruct (1 <=? col); [|reflexivity].
    destruct (record !! (col - 1)); reflexivity. }
  split; [exact Hcells|].
  intros col. rewrite Hcells. reflexivity.
Qed.

Lemma write_samples_cells_witness :
  length [["a"; "b"]; ["c"]] < 1048576 /\
  Forall (Forall storable) [["a"; "b"]; ["c"]] /\
  exists w',
    write_samples 0 [["a"; "b"]; ["c"]] complete_env one_sheet_state
      = (inr tt, set_worksheets [w'] one_sheet_state) /\
    cells w' !! (2, 2) = Some (value_cell "b" None) /\
    cells w' !! (3, 1) = Some (value_cell "c" None) /\
    cells w' !! (3, 2) = None.
Proof.
  assert (Hlen : length [["a"; "b"]; ["c"]] < 1048576)
    by (apply Nat.ltb_lt; vm_compute; reflexivity).
  assert (Hs : Forall (Forall storable) [["a"; "b"]; ["c"]])
    by (repeat (apply Forall_cons_2 || apply Forall_nil_2); reflexivity).
  split; [exact Hlen|]. split; [exact Hs|].
  destruct (write_samples_cells 0 (new_worksheet "Shipments") [["a"; "b"]; ["c"]]
              complete_env one_sheet_state eq_refl Hlen Hs)
    as (w' & Hrun & _ & _ & _ & Hc & _).
  exists w'. split; [exact Hrun|].
  split; [exact (Hc 2 2) | split; [exact (Hc 3 1) | exact (Hc 3 2)]].
Defined.

(* ------------------------------------------------------------------ *)
(** ** The instructions loop *)
(* ------------------------------------------------------------------ *)

Lemma instruction_pass sheet row (instruction : string) :
  1 <= row -> (N.of_nat row < 1048577)%N -> storable instruction ->
  sheet_writes
    (cell ← Openpyxl.cell sheet row 1 (Some instruction);
     (if row =? 1 then
        (ft ← lift (Openpyxl.new_Font true (Some 16) (Some "366092"));
         Openpyxl.set_cell_font cell ft)
      else if PyStr.endswith instruction ":" && negb (PyStr.startswith instruction "•") then
        (ft ← lift (Openpyxl.new_Font true None (Some "70AD47"));
         Openpyxl.set_cell_font cell ft)
      else mret tt);;
     Openpyxl.set_cell_alignment cell (mkAlignment None None (Some true)))
    sheet tt
    (fun key old =>
       if decide ((if key.2 =? 1 then Some key.1 else None) = Some row)
       then Some (instruction_cell row instruction old) else old)
    (fun _ old => old).
Proof.
  intros Hrow Hmax Hv.
  assert (Hkey : forall (key : nat * nat) (X Y : option Cell),
            (if decide (key = (row, 1)) then X else Y) =
            (if decide ((if key.2 =? 1 then Some key.1 else None) = Some row)
             then X else Y)).
  { intros [r c] X Y. cbn [fst snd].
    destruct (decide ((r, c) = (row, 1))) as [[= -> ->]|Hne].
    - rewrite decide_True by reflexivity. reflexivity.
    - rewrite decide_False; [reflexivity|].
      destruct (Nat.eqb_spec c 1); [intros [= ->]; congruence | discriminate]. }
  unfold instruction_cell, instruction_font.
  destruct (row =? 1);
    [|destruct (PyStr.endswith instruction ":" && negb (PyStr.startswith instruction "•"))].
  all: eapply sheet_writes_ext;
    [ eapply sheet_writes_bind;
        [apply (sheet_writes_cell sheet row 1 instruction);
           [lia | exact Hmax | lia | exact Hv]|];
      eapply sheet_writes_bind;
        [first [ eapply sheet_writes_bind;
                   [apply sheet_writes_lift; vm_compute; reflexivity
                   |apply sheet_writes_update_cell]
               | apply sheet_writes_ret ]|];
      apply sheet_writes_update_cell
    | intros key old; rewrite <- Hkey;
      destruct (decide (key = (row, 1))); reflexivity
    | reflexivity ].
Qed.

(** The instructions loop over any list of storable lines that fits the
    grid, on a sheet of the workbook: it succeeds; line i (from 1) goes to
    row i of column 1 with wrapped text.  Row 1 gets the bold 16-point blue
    title font (aRGB 00366092); a later line gets the bold green heading
    font (0070AD47) exactly when it ends with a colon and does not start
    with a bullet; any other line keeps the font the cell had.  Every other
    cell, the widths, the validations and the rest of the state are as
    before. *)
Theorem write_instructions_column sheet w (lines : list string) env st :
  worksheets st !! sheet = Some w ->
  length lines <= 1048576 ->
  Forall storable lines ->
  exists w',
    write_instructions sheet lines env st
      = (inr tt, set_worksheets (<[sheet := w']> (worksheets st)) st) /\
    title w' = title w /\
    data_validations w' = data_validations w /\
    column_dimensions w' = column_dimensions w /\
    forall row col,
      cells w' !! (row, col) =
        match (if (col =? 1) && (1 <=? row) then lines !! (row - 1) else None) with
        | Some line => Some (instruction_cell row line (cells w !! (row, col)))
        | None => cells w !! (row, col)
        end.
Proof.
  intros Hw Hlen Hlines.
  assert (Hok : forall k x, lines !! k = Some x ->
                  (N.of_nat (1 + k) < 1048577)%N /\ storable x).
  { intros k x Hk. split; [|exact (Forall_lookup_1 _ _ _ _ Hlines Hk)].
    apply grid_row. apply lookup_lt_Some in Hk. lia. }
  assert (Hloop := for_each_owned
                     (fun '(row, instruction) =>
                        cell ← Openpyxl.cell sheet row 1 (Some instruction);
                        (if row =? 1 then
                           (ft ← lift (Openpyxl.new_Font true (Some 16) (Some "366092"));
                            Openpyxl.set_cell_font cell ft)
                         else if PyStr.endswith instruction ":"
                                 && negb (PyStr.startswith instruction "•") then
                           (ft ← lift (Openpyxl.new_Font true None (Some "70AD47"));
                            Openpyxl.set_cell_font cell ft)
                         else mret tt);;
                        Openpyxl.set_cell_alignment cell
                          (mkAlignment None None (Some true)))
                     sheet (fun key => if key.2 =? 1 then Some key.1 else None)
                     (fun row line _ old => Some (instruction_cell row line old)) 1
                     (fun i x => (N.of_nat i < 1048577)%N /\ storable x)
                     (fun i x Hi Hx => instruction_pass sheet i x Hi (proj1 Hx) (proj2 Hx))
                     lines 1 (le_n 1) Hok).
  destruct (sheet_writes_elim _ _ _ _ _ env st w Hloop Hw)
    as (w' & Hrun & Ht & _ & Hv & Hc & Hd).
  exists w'. split; [exact Hrun|]. split; [exact Ht|]. split; [exact Hv|].
  split; [apply map_eq; intros l; exact (Hd l)|].
  intros row col. rewrite Hc. cbn beta. cbn [fst snd].
  destruct (col =? 1); [|reflexivity]. cbn [andb].
  destruct (1 <=? row); reflexivity.
Qed.

Lemma write_instructions_column_witness :
  length ["TITLE"; "NOTES:"; "• Weight: kg"; "• Fields:"] <= 1048576 /\
  Forall storable ["TITLE"; "NOTES:"; "• Weight: kg"; "• Fields:"] /\
  exists w',
    write_instructions 0 ["TITLE"; "NOTES:"; "• Weight: kg"; "• Fields:"]
      complete_env one_sheet_state
      = (inr tt, set_worksheets [w'] one_sheet_state) /\
    (cells w' !! (1, 1) ≫= font) = Some (mkFont true (Some 16) (Some "00366092")) /\
    (cells w' !! (2, 1) ≫= font) = Some (mkFont true None (Some "0070AD47")) /\
    (cells w' !! (3, 1) ≫= font) = None /\
    (cells w' !! (4, 1) ≫= font) = None.
Proof.
  assert (Hlen : length ["TITLE"; "NOTES:"; "• Weight: kg"; "• Fields:"] <= 1048576)
    by (apply Nat.leb_le; vm_compute; reflexivity).
  assert (Hs : Forall storable ["TITLE"; "NOTES:"; "• Weight: kg"; "• Fields:"])
    by (repeat (apply Forall_cons_2 || apply Forall_nil_2); reflexivity).
  split; [exact Hlen|]. split; [exact Hs|].
  destruct (write_instructions_column 0 (new_worksheet "Shipments")
              ["TITLE"; "NOTES:"; "• Weight: kg"; "• Fields:"]
              complete_env one_sheet_state eq_refl Hlen Hs)
    as (w' & Hrun & _ & _ & _ & Hc).
  exists w'. split; [exact Hrun|].
  rewrite (Hc 1 1), (Hc 2 1), (Hc 3 1), (Hc 4 1). repeat split.
Defined.

(* ------------------------------------------------------------------ *)
(** ** The choices loop *)
(* ------------------------------------------------------------------ *)

Lemma sheet_writes_set_column_width sheet letter width :
  sheet_writes (Openpyxl.set_column_width sheet letter width) sheet tt
    (fun _ old => old)
    (fun l old => if decide (l = letter) then Some width else old).
Proof.
  exists (with_column_dimensions (<[letter := width]>)). split; [reflexivity|].
  intros w. unfold with_column_dimensions.
  cbn [title sheet_state data_validations cells column_dimensions].
  repeat split. intros l. rewrite lookup_insert.
  destruct (decide (letter = l)) as [<-|Hne].
  - rewrite decide_True by reflexivity. reflexivity.
  - rewrite decide_False by congruence. reflexivity.
Qed.

Lemma sheet_writes_result {A} (m : M A) sheet a a' selc seld :
  sheet_writes m sheet a selc seld -> a = a' -> sheet_writes m sheet a' selc seld.
Proof. intros H <-. exact H. Qed.

Lemma get_column_letter_in_range col :
  1 <= col <= 18278 -> exists letter, Utils.get_column_letter col = inr letter.
Proof.
  intros [Hlo Hhi]. unfold Utils.get_column_letter.
  apply Nat.leb_le in Hlo, Hhi. rewrite Hlo, Hhi. eauto.
Qed.

Lemma category_pass sheet (category : string) (choices : list string) col :
  1 <= col <= 18278 ->
  storable_category (category, choices) ->
  sheet_writes
    (header_cell ← Openpyxl.cell sheet 1 col (Some (PyStr.replace category "_" " "));
     ft ← lift (Openpyxl.new_Font true None (Some "FFFFFF"));
     Openpyxl.set_cell_font header_cell ft;;
     fl ← lift (Openpyxl.new_PatternFill "70AD47" "70AD47" "solid");
     Openpyxl.set_cell_fill header_cell fl;;
     Openpyxl.set_cell_alignment header_cell (mkAlignment (Some "center") None None);;
     for_each (enumerate 2 choices) (fun '(row, choice) =>
       Openpyxl.cell sheet row col (Some choice);; mret tt);;
     letter ← lift (Utils.get_column_letter col);
     Openpyxl.set_column_width sheet letter 25;;
     mret (col + 1))
    sheet (col + 1)
    (fun key old =>
       if decide (key.2 = col) then choices_column_cell category choices key.1 old
       else old)
    (fun l old =>
       if bool_decide (Utils.get_column_letter col = inr l) then Some 25 else old).
Proof.
  intros Hcol (Hname & Hitems & Hlen). cbn [fst snd] in Hname, Hitems, Hlen.
  destruct (get_column_letter_in_range col Hcol) as (letter & Hletter).
  rewrite Hletter. cbn [lift].
  assert (Hok : forall k x, choices !! k = Some x ->
                  (N.of_nat (2 + k) < 1048577)%N /\ storable x).
  { intros k x Hk. split; [|exact (Forall_lookup_1 _ _ _ _ Hitems Hk)].
    apply grid_row. apply lookup_lt_Some in Hk. lia. }
  eapply sheet_writes_ext.
  - eapply sheet_writes_bind;
      [apply (sheet_writes_cell sheet 1 col); [lia | lia | lia | exact Hname]|].
    eapply sheet_writes_bind; [apply sheet_writes_lift; vm_compute; reflexivity|].
    eapply sheet_writes_bind; [apply sheet_writes_update_cell|].
    eapply sheet_writes_bind; [apply sheet_writes_lift; vm_compute; reflexivity|].
    eapply sheet_writes_bind; [apply sheet_writes_update_cell|].
    eapply sheet_writes_bind; [apply sheet_writes_update_cell|].
    eapply sheet_writes_bind.
    { apply (for_each_owned
               (fun '(row, choice) => Openpyxl.cell sheet row col (Some choice);; mret tt)
               sheet (fun key => if key.2 =? col then Some key.1 else None)
               (fun _ v _ old => Some (value_cell v old)) 1
               (fun i x => (N.of_nat i < 1048577)%N /\ storable x));
        [ | lia | exact Hok ].
      intros row v Hrow [Hmax Hv]. cbn beta iota.
      eapply sheet_writes_ext;
        [ eapply sheet_writes_bind;
          [ apply (sheet_writes_cell sheet row col v); [lia | exact Hmax | lia | exact Hv]
          | apply sheet_writes_ret ]
        | | reflexivity ].
      intros [r c] old. cbn [fst snd].
      destruct (decide ((r, c) = (row, col))) as [[= -> ->]|Hne].
      - rewrite Nat.eqb_refl, decide_True by reflexivity. reflexivity.
      - rewrite decide_False; [reflexivity|].
        destruct (Nat.eqb_spec c col); [intros [= ->]; congruence | discriminate]. }
    eapply sheet_writes_bind; [apply (sheet_writes_ret letter)|].
    eapply sheet_writes_bind; [apply sheet_writes_set_column_width|].
    apply sheet_writes_ret.
  - intros [r c] old. cbn [fst snd].
    destruct (Nat.eqb_spec c col) as [->|Hne].
    + rewrite (decide_True (P := col = col)) by reflexivity.
      destruct r as [|[|j]].
      * rewrite !decide_False by discriminate. reflexivity.
      * rewrite !decide_True by reflexivity. reflexivity.
      * rewrite !decide_False by discriminate.
        cbn [Nat.leb Nat.sub choices_column_cell]. rewrite Nat.sub_0_r. reflexivity.
    + rewrite (decide_False (P := c = col)) by exact Hne.
      rewrite !decide_False by congruence. reflexivity.
  - intros l old. cbn beta.
    destruct (decide (l = letter)) as [->|Hne].
    + rewrite bool_decide_eq_true_2 by reflexivity. reflexivity.
    + rewrite bool_decide_eq_false_2 by congruence. reflexivity.
Qed.

Lemma add_choices_writes sheet (data : list (string * list string)) :
  forall start,
    1 <= start -> start + length data <= S 18278 ->
    Forall storable_category data ->
    sheet_writes (add_choices sheet data start) sheet (start + length data)
      (fun key old =>
         if start <=? key.2
         then match data !! (key.2 - start) with
              | Some (category, items) => choices_column_cell category items key.1 old
              | None => old
              end
         else old)
      (fun l old => if names_column start (length data) l then Some 25 else old).
Proof.
  unfold add_choices.
  induction data as [|[category items] data IH]; intros start Hlo Hhi Hdata;
    cbn [for_each_acc length].
  - eapply sheet_writes_ext;
      [ eapply sheet_writes_result; [apply sheet_writes_ret | lia] | | reflexivity ].
    intros key old. destruct (start <=? key.2); [|reflexivity]. by rewrite lookup_nil.
  - cbn [length] in Hhi.
    apply Forall_cons_1 in Hdata. destruct Hdata as [Hc Hdata].
    eapply sheet_writes_ext.
    + eapply sheet_writes_bind;
        [apply (category_pass sheet category items start); [lia | exact Hc]|].
      eapply sheet_writes_result; [apply (IH (start + 1)); [lia | lia | exact Hdata] | lia].
    + intros [r c] old. cbn [fst snd].
      destruct (decide (c = start)) as [->|Hne].
      * rewrite (proj2 (Nat.leb_gt (start + 1) start)) by lia.
        rewrite Nat.leb_refl, Nat.sub_diag. reflexivity.
      * destruct (Nat.leb_spec (start + 1) c), (Nat.leb_spec start c); try lia;
          [|reflexivity].
        replace (c - start) with (S (c - (start + 1))) by lia. reflexivity.
    + intros l old. unfold names_column. cbn [seq existsb].
      rewrite Nat.add_1_r.
      destruct (bool_decide (Utils.get_column_letter start = inr l));
        cbn [orb]; [|reflexivity].
      destruct (existsb _ _); reflexivity.
Qed.

(** The choices loop over any list of storable categories and from any
    starting column, on a sheet of the workbook, as long as the columns
    stay within 1..18278: it succeeds and returns the column after the last
    category.  Category i (from 0) takes column start + i: its name with
    underscores turned into spaces in row 1, bold white (aRGB 00FFFFFF) on
    the solid green fill (0070AD47) and centred; its j-th item (from 0) in
    row 2 + j, keeping the style the cell had; rows below the items and all
    other columns keep what they held.  Each of these columns gets width
    25; other widths, the validations and the rest of the state are as
    before. *)
Theorem add_choices_columns sheet w (data : list (string * list string)) start env st :
  worksheets st !! sheet = Some w ->
  1 <= start ->
  start + length data <= S 18278 ->
  Forall storable_category data ->
  exists w',
    add_choices sheet data start env st
      = (inr (start + length data),
         set_worksheets (<[sheet := w']> (worksheets st)) st) /\
    title w' = title w /\
    data_validations w' = data_validations w /\
    (forall row col,
       cells w' !! (row, col) =
         if start <=? col
         then match data !! (col - start) with
              | Some (category, items) =>
                  choices_column_cell category items row (cells w !! (row, col))
              | None => cells w !! (row, col)
              end
         else cells w !! (row, col)) /\
    (forall letter,
       column_dimensions w' !! letter =
         if names_column start (length data) letter then Some 25
         else column_dimensions w !! letter).
Proof.
  intros Hw Hlo Hhi Hdata.
  destruct (sheet_writes_elim _ _ _ _ _ env st w
              (add_choices_writes sheet data start Hlo Hhi Hdata) Hw)
    as (w' & Hrun & Ht & _ & Hv & Hc & Hd).
  exists w'. split; [exact Hrun|]. split; [exact Ht|]. split; [exact Hv|].
  split; [intros row col; exact (Hc (row, col)) | exact Hd].
Qed.

Lemma add_choices_columns_witness :
  Forall storable_category
    [("Payment_Methods", ["COD"; "Wallet"]); ("Cities", ["Cairo"])] /\
  exists w',
    add_choices 0 [("Payment_Methods", ["COD"; "Wallet"]); ("Cities", ["Cairo"])] 3
      complete_env one_sheet_state
      = (inr 5, set_worksheets [w'] one_sheet_state) /\
    cells w' !! (1, 3) = Some (choices_header_cell "Payment Methods" None) /\
    cells w' !! (3, 3) = Some (value_cell "Wallet" None) /\
    cells w' !! (3, 4) = None /\
    column_dimensions w' !! "D" = Some 25 /\
    column_dimensions w' !! "E" = None.
Proof.
  assert (Hs : Forall storable_category
                 [("Payment_Methods", ["COD"; "Wallet"]); ("Cities", ["Cairo"])]).
  { repeat (apply Forall_cons_2 || apply Forall_nil_2);
      (split; [reflexivity|split;
         [repeat (apply Forall_cons_2 || apply Forall_nil_2); reflexivity
         |apply Nat.ltb_lt; vm_compute; reflexivity]]). }
  split; [exact Hs|].
  destruct (add_choices_columns 0 (new_worksheet "Shipments")
              [("Payment_Methods", ["COD"; "Wallet"]); ("Cities", ["Cairo"])] 3
              complete_env one_sheet_state eq_refl)
    as (w' & Hrun & _ & _ & Hc & Hd).
  - lia.
  - apply Nat.leb_le. vm_compute. reflexivity.
  - exact Hs.
  - exists w'. split; [exact Hrun|].
    rewrite (Hc 1 3), (Hc 3 3), (Hc 3 4), (Hd "D"), (Hd "E"). repeat split.
Defined.

(* ------------------------------------------------------------------ *)
(** ** Column letters read back as their column *)
(* ------------------------------------------------------------------ *)

Lemma letter_code (r : nat) :
  1 <= r <= 26 ->
  nat_of_ascii (ascii_of_nat (r + 64)) = r + 64 /\
  is_upper (ascii_of_nat (r + 64)) = true.
Proof.
  intros Hr.
  assert (Hc : nat_of_ascii (ascii_of_nat (r + 64)) = r + 64)
    by (apply nat_ascii_embedding; lia).
  split; [exact Hc|]. unfold is_upper. rewrite Hc.
  apply andb_true_intro. split; apply Nat.leb_le; lia.
Qed.

(** With fuel [f] the letters of a column up to [letters_bound f] come out
    in full: they are capitals, at most [f] of them, at least one for a
    column from 1 on, and their value is the column. *)
Lemma column_letters_rev_value (f : nat) :
  forall n,
    n <= letters_bound f ->
    letters_value_rev (Utils.column_letters_rev f n) = n /\
    forallb is_upper (Utils.column_letters_rev f n) = true /\
    length (Utils.column_letters_rev f n) <= f /\
    (1 <= n -> 1 <= length (Utils.column_letters_rev f n)).
Proof.
  induction f as [|f IH]; intros n Hn; cbn [letters_bound] in Hn.
  - assert (n = 0) by lia. subst n. cbn. repeat split; lia.
  - cbn [Utils.column_letters_rev].
    destruct (Nat.eqb_spec n 0) as [->|Hn0]; [cbn; repeat split; lia|].
    pose proof (Nat.div_mod_eq n 26) as Hdm.
    pose proof (Nat.mod_upper_bound n 26 ltac:(lia)) as Hm.
    destruct (Nat.eqb_spec (n mod 26) 0) as [Hr|Hr].
    + destruct (IH (n / 26 - 1) ltac:(lia)) as (Hv & Hu & Hl & _).
      destruct (letter_code 26 ltac:(lia)) as (Hc & Hup).
      cbn [letters_value_rev forallb length]. rewrite Hc, Hv, Hup, Hu.
      repeat split; lia.
    + destruct (IH (n / 26) ltac:(lia)) as (Hv & Hu & Hl & _).
      destruct (letter_code (n mod 26) ltac:(lia)) as (Hc & Hup).
      cbn [letters_value_rev forallb length]. rewrite Hc, Hv, Hup, Hu.
      repeat split; lia.
Qed.

Lemma upper_is_letter c : is_upper c = true -> Utils.is_letter c = true /\ Utils.upper c = c.
Proof.
  unfold is_upper, Utils.is_letter, Utils.upper. intros H.
  rewrite H. split; [reflexivity|].
  apply andb_prop in H as [_ H]. apply Nat.leb_le in H.
  rewrite (proj2 (Nat.leb_gt 97 (nat_of_ascii c))) by lia. reflexivity.
Qed.

Lemma letters_value_fold (cs : list ascii) :
  forallb is_upper cs = true ->
  fold_left (fun acc c => acc * 26 + (nat_of_ascii (Utils.upper c) - 64)) (rev cs) 0
  = letters_value_rev cs.
Proof.
  induction cs as [|c cs IH]; [reflexivity|].
  cbn [forallb rev letters_value_rev]. intros [Hc Hcs]%andb_prop.
  rewrite fold_left_app. cbn [fold_left]. rewrite (IH Hcs).
  rewrite (proj2 (upper_is_letter c Hc)). lia.
Qed.

(** The name [get_column_letter] gives to a column reads back, through
    [column_index_from_string], as that column. *)
Lemma column_letter_round_trip (col : nat) (letter : string) :
  Utils.get_column_letter col = inr letter ->
  Utils.column_index_from_string letter = Some col.
Proof.
  unfold Utils.get_column_letter.
  destruct (1 <=? col) eqn:Hlo; [|discriminate].
  destruct (col <=? 18278) eqn:Hhi; [|discriminate].
  cbn [andb]. intros H.
  assert (E : letter = string_of_list_ascii (rev (Utils.column_letters_rev 3 col)))
    by congruence.
  clear H. subst letter.
  apply Nat.leb_le in Hlo, Hhi.
  assert (Hbound : 18278 = letters_bound 3) by (vm_compute; reflexivity).
  rewrite Hbound in Hhi.
  destruct (column_letters_rev_value 3 col Hhi) as (Hv & Hu & Hl & Hne).
  specialize (Hne Hlo).
  unfold Utils.column_index_from_string.
  rewrite list_ascii_of_string_of_list_ascii, length_rev.
  assert (Hletters : forallb Utils.is_letter (rev (Utils.column_letters_rev 3 col)) = true).
  { apply forallb_forall. intros c Hc. apply in_rev in Hc.
    rewrite forallb_forall in Hu. apply upper_is_letter, Hu, Hc. }
  rewrite Hletters, (proj2 (Nat.leb_le _ _) Hne), (proj2 (Nat.leb_le _ _) Hl).
  cbn [andb]. rewrite (letters_value_fold _ Hu), Hv. reflexivity.
Qed.

Lemma column_of_letter (col : nat) (letter : string) :
  column_of letter = Some col <-> Utils.get_column_letter col = inr letter.
Proof.
  unfold column_of. split.
  - destruct (Utils.column_index_from_string letter) as [c|]; [|discriminate].
    destruct (bool_decide_reflect (Utils.get_column_letter c = inr letter)) as [H|];
      [|discriminate].
    intros [= <-]. exact H.
  - intros H. rewrite (column_letter_round_trip col letter H).
    rewrite bool_decide_eq_true_2 by exact H. reflexivity.
Qed.

(* ------------------------------------------------------------------ *)
(** ** The width loop *)
(* ------------------------------------------------------------------ *)

(** As [for_each_owned], for passes that set widths and for indices up to
    [hi]. *)
Lemma for_each_owned_widths {A} (body : nat * A -> M unit) sheet
    (owner : string -> option nat)
    (w : nat -> A -> option nat -> option nat) (lo hi : nat) :
  (forall i x, lo <= i <= hi ->
     sheet_writes (body (i, x)) sheet tt
       (fun _ old => old)
       (fun l old => if decide (owner l = Some i) then w i x old else old)) ->
  forall l start, lo <= start -> start + length l <= S hi ->
    sheet_writes (for_each (enumerate start l) body) sheet tt
      (fun _ old => old)
      (fun letter old =>
         match owner letter with
         | Some i =>
             if start <=? i
             then match l !! (i - start) with
                  | Some x => w i x old
                  | None => old
                  end
             else old
         | None => old
         end).
Proof.
  intros Hbody l. induction l as [|x l IH]; intros start Hstart Hend;
    cbn [enumerate for_each length] in *.
  - apply (sheet_writes_ext _ _ _ _ _ _ _ (sheet_writes_ret tt sheet)); [reflexivity|].
    intros letter old. destruct (owner letter) as [i|]; [|reflexivity].
    destruct (start <=? i); [|reflexivity]. by rewrite lookup_nil.
  - apply (sheet_writes_ext _ _ _ _ _ _ _
             (sheet_writes_bind _ _ _ _ _ _ _ _ _
                (Hbody start x ltac:(lia)) (IH (S start) ltac:(lia) ltac:(lia))));
      [reflexivity|].
    intros letter old. destruct (owner letter) as [i|].
    + destruct (decide (Some i = Some start)) as [[= ->]|Hne].
      * rewrite (proj2 (Nat.leb_gt (S start) start)) by lia.
        rewrite Nat.leb_refl, Nat.sub_diag. reflexivity.
      * assert (i <> start) by congruence.
        destruct (Nat.leb_spec (S start) i), (Nat.leb_spec start i); try lia;
          [|reflexivity].
        replace (i - start) with (S (i - S start)) by lia. reflexivity.
    + rewrite decide_False by discriminate. reflexivity.
Qed.

Lemma width_pass sheet col width :
  1 <= col <= 18278 ->
  sheet_writes
    (letter ← lift (Utils.get_column_letter col);
     Openpyxl.set_column_width sheet letter width)
    sheet tt
    (fun _ old => old)
    (fun l old => if decide (column_of l = Some col) then Some width else old).
Proof.
  intros Hcol.
  destruct (get_column_letter_in_range col Hcol) as (letter & Hletter).
  rewrite Hletter. cbn [lift].
  eapply sheet_writes_ext;
    [ eapply sheet_writes_bind;
      [apply (sheet_writes_ret letter) | apply sheet_writes_set_column_width]
    | reflexivity | ].
  intros l old. cbn beta.
  destruct (decide (l = letter)) as [->|Hne].
  - rewrite decide_True by (apply column_of_letter; exact Hletter). reflexivity.
  - rewrite decide_False; [reflexivity|].
    intros Hl%column_of_letter. congruence.
Qed.

(** The width loop over any list of at most 18278 widths, on a sheet of the
    workbook: it succeeds; the i-th width (from 1) is recorded under the
    letter of column i, distinct columns having distinct letters; no other
    width and no cell changes, and the rest of the state is as before. *)
Theorem set_widths_columns sheet w (widths : list nat) env st :
  worksheets st !! sheet = Some w ->
  length widths <= 18278 ->
  exists w',
    set_widths sheet widths env st
      = (inr tt, set_worksheets (<[sheet := w']> (worksheets st)) st) /\
    title w' = title w /\
    data_validations w' = data_validations w /\
    cells w' = cells w /\
    (forall i width letter,
       widths !! i = Some width ->
       Utils.get_column_letter (S i) = inr letter ->
       column_dimensions w' !! letter = Some width) /\
    (forall letter,
       column_dimensions w' !! letter =
         match column_of letter ≫= fun col => widths !! (col - 1) with
         | Some width => Some width
         | None => column_dimensions w !! letter
         end).
Proof.
  intros Hw Hlen.
  assert (Hloop := for_each_owned_widths
                     (fun '(col, width) =>
                        letter ← lift (Utils.get_column_letter col);
                        Openpyxl.set_column_width sheet letter width)
                     sheet column_of (fun _ width _ => Some width) 1 18278
                     (fun i x Hi => width_pass sheet i x Hi) widths 1 (le_n 1)
                     (le_n_S _ _ Hlen)).
  destruct (sheet_writes_elim _ _ _ _ _ env st w Hloop Hw)
    as (w' & Hrun & Ht & _ & Hv & Hc & Hd).
  exists w'. split; [exact Hrun|]. split; [exact Ht|]. split; [exact Hv|].
  split; [apply map_eq; intros key; exact (Hc key)|].
  assert (Hall : forall letter,
            column_dimensions w' !! letter =
              match column_of letter ≫= fun col => widths !! (col - 1) with
              | Some width => Some width
              | None => column_dimensions w !! letter
              end).
  { intros letter. rewrite Hd.
    destruct (column_of letter) as [c|] eqn:Hcol; cbn [mbind option_bind];
      [|reflexivity].
    assert (1 <= c).
    { apply column_of_letter in Hcol. unfold Utils.get_column_letter in Hcol.
      destruct (Nat.leb_spec 1 c); [assumption | discriminate]. }
    rewrite (proj2 (Nat.leb_le 1 c)) by assumption. reflexivity. }
  split; [|exact Hall].
  intros i width letter Hi Hletter. rewrite Hall.
  rewrite (proj2 (column_of_letter (S i) letter) Hletter).
  cbn [mbind option_bind]. replace (S i - 1) with i by lia.
  rewrite Hi. reflexivity.
Qed.

Lemma set_widths_columns_witness :
  exists w',
    set_widths 0 [20; 15; 30] complete_env one_sheet_state
      = (inr tt, set_worksheets [w'] one_sheet_state) /\
    column_dimensions w' !! "B" = Some 15 /\
    column_dimensions w' !! "D" = None /\
    column_dimensions w' !! "b" = None.
Proof.
  destruct (set_widths_columns 0 (new_worksheet "Shipments") [20; 15; 30]
              complete_env one_sheet_state eq_refl)
    as (w' & Hrun & _ & _ & _ & _ & Hd).
  - apply Nat.leb_le. vm_compute. reflexivity.
  - exists w'. split; [exact Hrun|].
    rewrite (Hd "B"), (Hd "D"), (Hd "b"). repeat split.
Defined.
